(** * Snaptron MCP server: a shallow embedding of [snaptron_mcp_server.py]

    The development follows the source file top to bottom: Python values
    and their printed forms, insertion-ordered dictionaries, [build_url],
    [fetch], the tool catalogue, [extract_params] and [call_tool].

    Conventions.
    - A Python [str] is a Rocq [string] whose characters are the code points
      0..255.
    - A Python [dict] is an association list in insertion order; a dictionary
      never holds a key twice ([dict_wf]).
    - The remote service and the JSON library are collaborators: they are
      Section variables of [Gateway].
    - Exceptions are the subclasses of [Exception]; interpreter signals
      deriving from [BaseException] only (task cancellation, interpreter
      exit) are outside the fault model. *)

From Stdlib Require Import List String Ascii ZArith Bool Arith Lia Permutation.
From Stdlib Require Import DecimalString.
Import ListNotations.

Set Warnings "-register-all".

Local Open Scope list_scope.
Local Open Scope string_scope.

(* ================================================================== *)
(** ** Characters and string helpers *)

Definition LF : string := String "010"%char EmptyString.
Definition DQUOTE : string := String "034"%char EmptyString.

(** [s.startswith(p)] *)
Definition startswith (s p : string) : bool := String.prefix p s.

(** The text [t] occurs inside [s] (Python's [t in s]). *)
Definition Contains (s t : string) : Prop :=
  exists pre post, s = pre ++ t ++ post.

(** [str.isspace] on one character, over the code points 0..255:
    TAB, LF, VT, FF, CR, FS, GS, RS, US, SPACE, NEL and NBSP. *)
Definition is_space (c : ascii) : bool :=
  let n := nat_of_ascii c in
  (((9 <=? n) && (n <=? 13)) || ((28 <=? n) && (n <=? 32))
   || (n =? 133) || (n =? 160))%nat.

Definition is_empty (s : string) : bool :=
  match s with EmptyString => true | _ => false end.

Fixpoint lstrip (s : string) : string :=
  match s with
  | EmptyString => EmptyString
  | String c s' => if is_space c then lstrip s' else s
  end.

Fixpoint rstrip (s : string) : string :=
  match s with
  | EmptyString => EmptyString
  | String c s' =>
      let r := rstrip s' in
      if is_space c && is_empty r then EmptyString else String c r
  end.

(** [s.strip()] *)
Definition strip (s : string) : string := rstrip (lstrip s).

(** [s.split("\n")]: never the empty list; the empty text gives [[""]]. *)
Fixpoint split_lines (s : string) : list string :=
  match s with
  | EmptyString => [EmptyString]
  | String c s' =>
      if Ascii.eqb c "010"%char then EmptyString :: split_lines s'
      else match split_lines s' with
           | l :: ls => String c l :: ls
           | [] => [String c EmptyString]
           end
  end.

(* ================================================================== *)
(** ** Python values carried by the JSON argument object *)

(** JSON null, booleans, integers, strings and arrays; [POther] stands
    for a float or a JSON object, carried with its truth value and its
    printed form ([str] and [repr] coincide for both). *)
Inductive pyval : Type :=
| PNone
| PBool (b : bool)
| PInt (z : Z)
| PStr (s : string)
| PList (l : list pyval)
| POther (truth : bool) (printed : string).

Definition hex_digit (n : nat) : ascii :=
  if (n <? 10)%nat then ascii_of_nat (48 + n) else ascii_of_nat (87 + n).

(** [\xHH] with lowercase digits *)
Definition hex_escape (c : ascii) : string :=
  let n := nat_of_ascii c in
  String "\" (String "x"
    (String (hex_digit (n / 16)) (String (hex_digit (n mod 16)) EmptyString))).

Fixpoint has_char (q : ascii) (s : string) : bool :=
  match s with
  | EmptyString => false
  | String c s' => Ascii.eqb c q || has_char q s'
  end.

(** One character of [repr] of a [str] quoted with [q]. *)
Definition repr_char (q c : ascii) : string :=
  let n := nat_of_ascii c in
  if Ascii.eqb c q || Ascii.eqb c "\" then String "\" (String c EmptyString)
  else if (n =? 9)%nat then "\t"
  else if (n =? 10)%nat then "\n"
  else if (n =? 13)%nat then "\r"
  else if ((n <? 32) || (n =? 127))%nat then hex_escape c
  else if (n <? 127)%nat then String c EmptyString
  else if ((n <=? 160) || (n =? 173))%nat then hex_escape c
  else String c EmptyString.

Fixpoint repr_chars (q : ascii) (s : string) : string :=
  match s with
  | EmptyString => EmptyString
  | String c s' => repr_char q c ++ repr_chars q s'
  end.

(** [repr(s)] for a [str]: single quotes, unless the text holds a single
    quote and no double quote. *)
Definition repr_str (s : string) : string :=
  let q := if has_char "'" s && negb (has_char "034" s)
           then "034"%char else "'"%char in
  String q (repr_chars q s ++ String q EmptyString).

Definition str_int (z : Z) : string := NilZero.string_of_int (Z.to_int z).

Fixpoint py_repr (v : pyval) : string :=
  match v with
  | PNone => "None"
  | PBool true => "True"
  | PBool false => "False"
  | PInt z => str_int z
  | PStr s => repr_str s
  | PList l => "[" ++ String.concat ", " (map py_repr l) ++ "]"
  | POther _ printed => printed
  end.

(** [str(v)], which is what an f-string field [{v}] prints. *)
Definition py_str (v : pyval) : string :=
  match v with
  | PStr s => s
  | _ => py_repr v
  end.

(** [bool(v)], the test of [if v:] *)
Definition truthy (v : pyval) : bool :=
  match v with
  | PNone => false
  | PBool b => b
  | PInt z => negb (Z.eqb z 0)
  | PStr s => negb (is_empty s)
  | PList l => match l with [] => false | _ => true end
  | POther truth _ => truth
  end.

Definition is_None (v : pyval) : bool :=
  match v with PNone => true | _ => false end.

(* ================================================================== *)
(** ** Dictionaries *)

Definition dict : Type := list (string * pyval).

Fixpoint dict_get (key : string) (d : dict) : option pyval :=
  match d with
  | [] => None
  | (k, v) :: d' => if String.eqb key k then Some v else dict_get key d'
  end.

(** [key in d] *)
Definition dict_in (key : string) (d : dict) : bool :=
  match dict_get key d with Some _ => true | None => false end.

(** [d[key] = v]: an existing key keeps its position, a new key goes last. *)
Fixpoint dict_set (key : string) (v : pyval) (d : dict) : dict :=
  match d with
  | [] => [(key, v)]
  | (k, w) :: d' =>
      if String.eqb key k then (k, v) :: d' else (k, w) :: dict_set key v d'
  end.

Fixpoint dict_remove (key : string) (d : dict) : dict :=
  match d with
  | [] => []
  | (k, w) :: d' =>
      if String.eqb key k then dict_remove key d'
      else (k, w) :: dict_remove key d'
  end.

Definition dict_keys (d : dict) : list string := map fst d.

Definition dict_wf (d : dict) : Prop := NoDup (dict_keys d).

(* ================================================================== *)
(** ** [build_url] *)

Definition BASE_URL : string := "http://snaptron.cs.jhu.edu".

Definition KNOWN_COMPILATIONS : list string :=
  ["gtexv2"; "srav3h"; "srav1m"; "tcgav2"; "tcga"; "gtex"; "srav2"].

(** The body of the loop of [build_url] for one item: what it appends
    to [parts]. *)
Definition item_parts (key : string) (value : pyval) : list string :=
  match value with
  | PList l => map (fun v => key ++ "=" ++ py_str v) l
  | PNone => []
  | PStr EmptyString => []
  | _ => [key ++ "=" ++ py_str value]
  end.

(** [parts] after the loop over [params.items()]. *)
Definition query_parts (params : dict) : list string :=
  fold_left (fun parts kv => (parts ++ item_parts (fst kv) (snd kv))%list)
            params [].

Definition build_url (compilation endpoint : pyval) (params : dict) : string :=
  let base := BASE_URL ++ "/" ++ py_str compilation ++ "/" ++ py_str endpoint in
  let parts := query_parts params in
  match parts with
  | [] => base
  | _ => base ++ "?" ++ String.concat "&" parts
  end.

(** The same loop, keeping key and printed value apart: the pairs the
    query string is made of ([query_parts_pairs] ties the two). *)
Definition item_pairs (key : string) (value : pyval)
  : list (string * string) :=
  match value with
  | PList l => map (fun v => (key, py_str v)) l
  | PNone => []
  | PStr EmptyString => []
  | _ => [(key, py_str value)]
  end.

Definition query_pairs (params : dict) : list (string * string) :=
  flat_map (fun kv => item_pairs (fst kv) (snd kv)) params.

Definition render_pair (p : string * string) : string :=
  fst p ++ "=" ++ snd p.

Definition key_is (key : string) (p : string * string) : bool :=
  String.eqb (fst p) key.

(** The pairs of the query string that carry [key]. *)
Definition pairs_of (key : string) (params : dict) : list (string * string) :=
  filter (key_is key) (query_pairs params).

(* ================================================================== *)
(** ** Exceptions, results and the handler monad *)

(** The exception classes the handlers of [call_tool] tell apart, each
    with what the handlers read from it; for the last three [str(e)] is
    [repr] of the key, respectively the message. *)
Inductive exn : Type :=
| HTTPStatusError (status_code : Z) (text : string)
| RequestError (message : string)
| KeyError (key : string)
| JSONDecodeError (message : string)
| OtherException (message : string).

Inductive outcome (A : Type) : Type :=
| Returned (a : A)
| Raised (e : exn).
Arguments Returned {A} a.
Arguments Raised {A} e.

(** A computation threads the log of the URLs requested so far and ends
    by returning or by raising. *)
Definition M (A : Type) : Type := list string -> outcome A * list string.

Definition ret {A} (a : A) : M A := fun log => (Returned a, log).

Definition raise {A} (e : exn) : M A := fun log => (Raised e, log).

Definition bind {A B} (m : M A) (k : A -> M B) : M B :=
  fun log =>
    match m log with
    | (Returned a, log') => k a log'
    | (Raised e, log') => (Raised e, log')
    end.

Definition try_except {A} (m : M A) (handler : exn -> M A) : M A :=
  fun log =>
    match m log with
    | (Returned a, log') => (Returned a, log')
    | (Raised e, log') => handler e log'
    end.

Notation "x <- m ;; k" := (bind m (fun x => k))
  (at level 61, m at next level, right associativity).

(** [d[key]] as an expression: [KeyError] when the key is missing. *)
Definition subscript (d : dict) (key : string) : M pyval :=
  match dict_get key d with
  | Some v => ret v
  | None => raise (KeyError key)
  end.

(** [mcp.types.TextContent] *)
Record TextContent : Type := { type : string; text : string }.

(* ================================================================== *)
(** ** The tool catalogue ([list_tools]), descriptions left out *)

Inductive property_schema : Type :=
| string_
| string_enum (values : list string)
| integer_enum (values : list Z)
| array_of_string.

Record Tool : Type := {
  name : string;
  properties : list (string * property_schema);
  required : list string
}.

Definition list_tools : list Tool :=
  [ {| name := "snaptron_query_junctions";
       properties :=
         [ ("compilation", string_enum KNOWN_COMPILATIONS);
           ("regions", string_); ("ids", string_);
           ("rfilter", array_of_string); ("sfilter", array_of_string);
           ("sids", string_);
           ("contains", integer_enum [0; 1]%Z);
           ("exact", integer_enum [0; 1]%Z);
           ("either", integer_enum [1; 2]%Z);
           ("header", integer_enum [0; 1]%Z);
           ("fields", string_) ];
       required := ["compilation"] |};
    {| name := "snaptron_query_genes";
       properties :=
         [ ("compilation", string_enum KNOWN_COMPILATIONS);
           ("regions", string_); ("ids", string_);
           ("rfilter", array_of_string); ("sfilter", array_of_string);
           ("sids", string_);
           ("contains", integer_enum [0; 1]%Z);
           ("exact", integer_enum [0; 1]%Z);
           ("either", integer_enum [1; 2]%Z);
           ("header", integer_enum [0; 1]%Z);
           ("fields", string_) ];
       required := ["compilation"] |};
    {| name := "snaptron_query_samples";
       properties :=
         [ ("compilation", string_enum KNOWN_COMPILATIONS);
           ("sfilter", array_of_string); ("ids", string_);
           ("header", integer_enum [0; 1]%Z);
           ("fields", string_) ];
       required := ["compilation"] |};
    {| name := "snaptron_list_compilations";
       properties := [];
       required := [] |};
    {| name := "snaptron_get_result_count";
       properties :=
         [ ("compilation", string_enum KNOWN_COMPILATIONS);
           ("regions", string_);
           ("rfilter", array_of_string); ("sfilter", array_of_string);
           ("sids", string_) ];
       required := ["compilation"; "regions"] |};
    {| name := "snaptron_build_url";
       properties :=
         [ ("compilation", string_enum KNOWN_COMPILATIONS);
           ("endpoint", string_enum ["snaptron"; "genes"; "samples"]);
           ("regions", string_); ("ids", string_);
           ("rfilter", array_of_string); ("sfilter", array_of_string);
           ("sids", string_);
           ("contains", integer_enum [0; 1]%Z);
           ("exact", integer_enum [0; 1]%Z);
           ("either", integer_enum [1; 2]%Z);
           ("header", integer_enum [0; 1]%Z);
           ("fields", string_) ];
       required := ["compilation"; "endpoint"] |} ].

Definition tool_names : list string := map name list_tools.

(* ================================================================== *)
(** ** [extract_params] *)

Definition scalar_keys : list string :=
  ["regions"; "ids"; "sids"; "contains"; "exact"; "either"; "header";
   "fields"].

(** [if key in args and args[key] is not None: params[key] = args[key]] *)
Definition copy_scalar (args params : dict) (key : string) : dict :=
  match dict_get key args with
  | Some v => if is_None v then params else dict_set key v params
  | None => params
  end.

(** [if key in args and args[key]: params[key] = args[key]] *)
Definition copy_repeated (args params : dict) (key : string) : dict :=
  match dict_get key args with
  | Some v => if truthy v then dict_set key v params else params
  | None => params
  end.

Definition extract_params (args : dict) : dict :=
  let params := fold_left (copy_scalar args) scalar_keys [] in
  let params := copy_repeated args params "rfilter" in
  let params := copy_repeated args params "sfilter" in
  params.

(* ================================================================== *)
(** ** The response summary of the record-returning tools *)

Definition MARKER : string := "DataSource".

(** [l and not l.startswith("DataSource")] *)
Definition is_record (l : string) : bool :=
  negb (is_empty l) && negb (startswith l MARKER).

(** [lines = result.strip().split("\n")] and
    [count = len([l for l in lines if l and not l.startswith("DataSource")])],
    written out alike in the junctions, genes and samples branches. *)
Definition count_records (result : string) : nat :=
  let lines := split_lines (strip result) in
  List.length (filter is_record lines).

(** The summary as the specification words it: split on newline, trim
    each line, count the lines that are then non-empty and do not start
    with the marker. *)
Definition summarize_spec (text : string) : nat :=
  List.length (filter is_record (map strip (split_lines text))).

(* ================================================================== *)
(** ** [fetch] and [call_tool] *)

(** What [client.get(url)] gives: a response, whatever its status (the
    last one, redirects followed), or an exception. *)
Inductive get_result : Type :=
| Response (status_code : Z) (text : string)
| GetRaises (e : exn).

(** [httpx.codes.is_success] *)
Definition is_success (status_code : Z) : bool :=
  ((200 <=? status_code) && (status_code <=? 299))%Z.

Section Gateway.

(** The remote service behind the HTTP client. *)
Variable http_get : string -> get_result.

(** [json.dumps(json.loads(s), indent=2)]: the reformatted text, or the
    exception [json.loads] raised. *)
Variable json_reformat : string -> outcome string.

(** [await client.get(url)]: one request, logged. *)
Definition client_get (url : string) : M get_result :=
  fun log => (Returned (http_get url), (log ++ [url])%list).

Definition fetch (url : string) : M string :=
  response <- client_get url ;;
  match response with
  | GetRaises e => raise e
  | Response status_code text =>
      (* response.raise_for_status() *)
      if is_success status_code then ret text
      else raise (HTTPStatusError status_code text)
  end.

Definition text_content (t : string) : list TextContent :=
  [ {| type := "text"; text := t |} ].

(** The junctions, genes and samples branches, which differ in the
    endpoint only. *)
Definition query_records (endpoint : string) (arguments : dict)
  : M (list TextContent) :=
  compilation <- subscript arguments "compilation" ;;
  let params := extract_params arguments in
  let url := build_url compilation (PStr endpoint) params in
  result <- fetch url ;;
  let count := count_records result in
  ret (text_content
         ("Query URL: " ++ url ++ LF ++ LF ++ "Results ("
          ++ str_int (Z.of_nat count) ++ " records):" ++ LF ++ LF
          ++ result)).

(** The body of the [try] of [call_tool]. *)
Definition dispatch (name : string) (arguments : dict)
  : M (list TextContent) :=
  if String.eqb name "snaptron_list_compilations" then
    let url := BASE_URL ++ "/snaptron/registry" in
    result <- fetch url ;;
    match json_reformat result with
    | Returned formatted =>
        ret (text_content
               ("Snaptron Compilation Registry:" ++ LF ++ LF ++ formatted))
    | Raised (JSONDecodeError _) =>
        ret (text_content ("Registry response:" ++ LF ++ result))
    | Raised e => raise e
    end
  else if String.eqb name "snaptron_query_junctions" then
    query_records "snaptron" arguments
  else if String.eqb name "snaptron_query_genes" then
    query_records "genes" arguments
  else if String.eqb name "snaptron_query_samples" then
    query_records "samples" arguments
  else if String.eqb name "snaptron_get_result_count" then
    compilation <- subscript arguments "compilation" ;;
    let params := extract_params arguments in
    let params := dict_set "fields" (PStr "rc") params in
    let url := build_url compilation (PStr "snaptron") params in
    result <- fetch url ;;
    ret (text_content
           ("Query URL: " ++ url ++ LF ++ LF ++ "Result count response:"
            ++ LF ++ result))
  else if String.eqb name "snaptron_build_url" then
    compilation <- subscript arguments "compilation" ;;
    let endpoint :=
      match dict_get "endpoint" arguments with
      | Some v => v
      | None => PStr "snaptron"
      end in
    let params := extract_params arguments in
    let url := build_url compilation endpoint params in
    ret (text_content
           ("Built Snaptron URL:" ++ LF ++ url ++ LF ++ LF
            ++ "You can test this with:" ++ LF ++ "  curl -L "
            ++ DQUOTE ++ url ++ DQUOTE))
  else
    ret (text_content ("Unknown tool: " ++ name)).

(** The three [except] clauses, in order; the last one prints [str(e)]. *)
Definition on_exception (e : exn) : M (list TextContent) :=
  match e with
  | HTTPStatusError status_code text =>
      ret (text_content
             ("HTTP error " ++ str_int status_code ++ ": " ++ text))
  | RequestError message =>
      ret (text_content ("Request error: " ++ message))
  | KeyError key =>
      ret (text_content ("Error: " ++ repr_str key))
  | JSONDecodeError message | OtherException message =>
      ret (text_content ("Error: " ++ message))
  end.

Definition call_tool (name : string) (arguments : dict)
  : M (list TextContent) :=
  try_except (dispatch name arguments) on_exception.

End Gateway.

(** What one visit of [extract_params] adds for [key]: nothing, or the
    caller's item. *)
Definition pick_scalar (args : dict) (key : string) : dict :=
  match dict_get key args with
  | Some v => if is_None v then [] else [(key, v)]
  | None => []
  end.

Definition pick_repeated (args : dict) (key : string) : dict :=
  match dict_get key args with
  | Some v => if truthy v then [(key, v)] else []
  | None => []
  end.

Definition keeps_scalar (args : dict) (k : string) : bool :=
  match dict_get k args with Some v => negb (is_None v) | None => false end.

Definition keeps_repeated (args : dict) (k : string) : bool :=
  match dict_get k args with Some v => truthy v | None => false end.

(** What [fetch] makes of the client's answer. *)
Definition fetch_outcome (r : get_result) : outcome string :=
  match r with
  | Response status_code text =>
      if is_success status_code then Returned text
      else Raised (HTTPStatusError status_code text)
  | GetRaises e => Raised e
  end.

Definition registry_url : string := BASE_URL ++ "/snaptron/registry".

(** The text each [except] clause of [call_tool] answers with. *)
Definition error_text (e : exn) : string :=
  match e with
  | HTTPStatusError status_code text =>
      "HTTP error " ++ str_int status_code ++ ": " ++ text
  | RequestError message => "Request error: " ++ message
  | KeyError key => "Error: " ++ repr_str key
  | JSONDecodeError message | OtherException message => "Error: " ++ message
  end.

(** An outcome as [call_tool] hands it on: a raised exception becomes
    its text. *)
Definition answered (o : outcome (list TextContent))
  : outcome (list TextContent) :=
  match o with
  | Returned a => Returned a
  | Raised e => Returned [ {| type := "text"; text := error_text e |} ]
  end.

(** The number of records among lines that are trimmed one by one. *)
Definition count_trimmed (lines : list string) : nat :=
  List.length (filter is_record (map strip lines)).

Definition TAB : string := String "009"%char EmptyString.

(** Stand-ins for the collaborators, for the worked examples: a service
    that answers every request with status 500, one that answers with a
    header line and three records, and a JSON library that rejects its
    input. *)
Definition stub_500 (url : string) : get_result :=
  Response 500 "server error".

Definition stub_body : string :=
  "DataSource:Type" ++ TAB ++ "snaptron_id" ++ LF
  ++ "GTEx:I" ++ TAB ++ "1" ++ LF
  ++ "GTEx:I" ++ TAB ++ "2" ++ LF
  ++ "GTEx:I" ++ TAB ++ "3" ++ LF ++ LF.

Definition stub_200 (url : string) : get_result :=
  Response 200 stub_body.

Definition stub_json (s : string) : outcome string :=
  Raised (JSONDecodeError "Expecting value: line 1 column 1 (char 0)").

(** The order in which [extract_params] visits the keys. *)
Definition param_order : list string :=
  (scalar_keys ++ ["rfilter"; "sfilter"])%list.

(** The record-returning tools' text for a fetched body. *)
Definition records_text (url result : string) : string :=
  "Query URL: " ++ url ++ LF ++ LF ++ "Results ("
  ++ str_int (Z.of_nat (count_records result)) ++ " records):" ++ LF ++ LF
  ++ result.

Definition built_text (url : string) : string :=
  "Built Snaptron URL:" ++ LF ++ url ++ LF ++ LF
  ++ "You can test this with:" ++ LF ++ "  curl -L "
  ++ DQUOTE ++ url ++ DQUOTE.

(** A value for which the loop of [build_url] appends nothing: [None],
    the empty string, the empty list. *)
Definition skipped (v : pyval) : bool :=
  match v with
  | PNone => true
  | PStr EmptyString => true
  | PList [] => true
  | _ => false
  end.

(** A text made of whitespace only ([s.strip() == ""]). *)
Fixpoint all_space (s : string) : bool :=
  match s with
  | EmptyString => true
  | String c s' => is_space c && all_space s'
  end.

(** A line of a well-formed response: not empty, no newline inside, no
    whitespace at either end. *)
Definition clean_line (l : string) : Prop :=
  l <> "" /\ has_char "010" l = false /\ strip l = l.

(** The keys a schema may advertise and the handlers read: the two path
    arguments and the keys [extract_params] visits. *)
Definition handled_key (key : string) : bool :=
  existsb (String.eqb key)
          ("compilation" :: "endpoint" :: scalar_keys ++ ["rfilter"; "sfilter"]).

Definition schema_keys_handled (t : Tool) : bool :=
  forallb (fun p => handled_key (fst p)) (properties t)
  && forallb (fun r => existsb (String.eqb r) (map fst (properties t)))
             (required t).

(** The endpoint each record-returning tool queries. *)
Definition record_tools : list (string * string) :=
  [("snaptron_query_junctions", "snaptron");
   ("snaptron_query_genes", "genes");
   ("snaptron_query_samples", "samples")].

(** A service that cannot be reached. *)
Definition stub_down (url : string) : get_result :=
  GetRaises (RequestError "All connection attempts failed").

(* ================================================================== *)
(** * Properties *)

(** ** Strings *)

Lemma append_nil_r (s : string) : s ++ "" = s.
Proof. induction s; simpl; congruence. Qed.

Lemma append_assoc (a b c : string) : (a ++ b) ++ c = a ++ b ++ c.
Proof. induction a; simpl; congruence. Qed.

Lemma Contains_middle (pre t post : string) : Contains (pre ++ t ++ post) t.
Proof. now exists pre, post. Qed.

Lemma Contains_suffix (pre t : string) : Contains (pre ++ t) t.
Proof. exists pre, "". now rewrite append_nil_r. Qed.

Lemma Contains_app_l (pre s t : string) :
  Contains s t -> Contains (pre ++ s) t.
Proof.
  intros (a & b & ->). exists (pre ++ a), b. now rewrite append_assoc.
Qed.

Lemma Contains_app_r (s post t : string) :
  Contains s t -> Contains (s ++ post) t.
Proof.
  intros (a & b & ->). exists a, (b ++ post). now rewrite !append_assoc.
Qed.

Lemma Contains_concat (sep x : string) (l : list string) :
  In x l -> Contains (String.concat sep l) x.
Proof.
  induction l as [|a l IH]; [contradiction|].
  intros [->|Hin].
  - destruct l; simpl.
    + exists "", "". now rewrite append_nil_r.
    + exists "", (sep ++ String.concat sep (s :: l)). reflexivity.
  - destruct l as [|b l]; [contradiction|].
    change (String.concat sep (a :: b :: l))
      with (a ++ sep ++ String.concat sep (b :: l)).
    now apply Contains_app_l, Contains_app_l, IH.
Qed.

(** ** Dictionaries *)

Lemma dict_get_None_keys (key : string) (d : dict) :
  dict_get key d = None <-> ~ In key (dict_keys d).
Proof.
  induction d as [|[k v] d IH]; simpl.
  - tauto.
  - destruct (String.eqb_spec key k) as [->|Hne].
    + split; [discriminate | intros H; exfalso; apply H; now left].
    + rewrite IH. split.
      * intros H [E|E]; [congruence | tauto].
      * intros H E. apply H. now right.
Qed.

Lemma dict_get_Some_In (key : string) (v : pyval) (d : dict) :
  dict_get key d = Some v -> In (key, v) d.
Proof.
  induction d as [|[k w] d IH]; simpl; [discriminate|].
  destruct (String.eqb_spec key k) as [->|Hne].
  - intros [= ->]. now left.
  - intros H. right. auto.
Qed.

Lemma In_dict_get (key : string) (v : pyval) (d : dict) :
  dict_wf d -> In (key, v) d -> dict_get key d = Some v.
Proof.
  unfold dict_wf, dict_keys.
  induction d as [|[k w] d IH]; simpl; [tauto|].
  intros Hnd [E|Hin].
  - injection E as -> ->. now rewrite String.eqb_refl.
  - inversion Hnd as [|? ? Hk Hd]; subst.
    destruct (String.eqb_spec key k) as [->|Hne]; [|auto].
    exfalso. apply Hk. change k with (fst (k, v)). now apply in_map.
Qed.

Lemma dict_get_app (key : string) (d1 d2 : dict) :
  dict_get key (d1 ++ d2)%list =
  match dict_get key d1 with Some v => Some v | None => dict_get key d2 end.
Proof.
  induction d1 as [|[k w] d1 IH]; simpl; [reflexivity|].
  now destruct (String.eqb key k).
Qed.

Lemma dict_get_set (key k : string) (v : pyval) (d : dict) :
  dict_get key (dict_set k v d) =
  if String.eqb key k then Some v else dict_get key d.
Proof.
  induction d as [|[k' w] d IH]; simpl.
  - reflexivity.
  - destruct (String.eqb_spec k k') as [->|Hne]; simpl.
    + now destruct (String.eqb key k').
    + rewrite IH.
      destruct (String.eqb_spec key k') as [->|Hne'];
        [|reflexivity].
      destruct (String.eqb_spec k' k); congruence.
Qed.

Lemma dict_set_fresh (k : string) (v : pyval) (d : dict) :
  dict_get k d = None -> dict_set k v d = (d ++ [(k, v)])%list.
Proof.
  induction d as [|[k' w] d IH]; simpl; [reflexivity|].
  destruct (String.eqb k k'); [discriminate|].
  intros H. now rewrite IH.
Qed.

Lemma dict_keys_set (k : string) (v : pyval) (d : dict) :
  dict_keys (dict_set k v d) =
  if dict_in k d then dict_keys d else (dict_keys d ++ [k])%list.
Proof.
  unfold dict_in, dict_keys.
  induction d as [|[k' w] d IH]; simpl; [reflexivity|].
  destruct (String.eqb_spec k k') as [->|Hne]; simpl; [reflexivity|].
  rewrite IH. now destruct (dict_get k d).
Qed.

Lemma dict_set_wf (k : string) (v : pyval) (d : dict) :
  dict_wf d -> dict_wf (dict_set k v d).
Proof.
  unfold dict_wf. rewrite dict_keys_set. unfold dict_in.
  destruct (dict_get k d) eqn:E; [tauto|].
  intros H. apply dict_get_None_keys in E.
  apply NoDup_rev in H. rewrite <- (rev_involutive (_ ++ _)%list).
  apply NoDup_rev. rewrite rev_app_distr. simpl.
  constructor; [now rewrite <- in_rev | assumption].
Qed.

Lemma dict_remove_absent (key : string) (d : dict) :
  dict_get key d = None -> dict_remove key d = d.
Proof.
  induction d as [|[k w] d IH]; simpl; [reflexivity|].
  destruct (String.eqb key k); [discriminate|].
  intros H. now rewrite IH.
Qed.

Lemma dict_wf_tail (kv : string * pyval) (d : dict) :
  dict_wf (kv :: d) -> dict_get (fst kv) d = None /\ dict_wf d.
Proof.
  unfold dict_wf. simpl. intros H. inversion H; subst.
  split; [now apply dict_get_None_keys | assumption].
Qed.

Lemma perm_dict_get (a1 a2 : dict) :
  dict_wf a1 -> Permutation a1 a2 ->
  forall key, dict_get key a1 = dict_get key a2.
Proof.
  intros Hwf Hp key.
  assert (Hwf2 : dict_wf a2).
  { unfold dict_wf, dict_keys in *.
    eapply Permutation_NoDup; [|exact Hwf]. now apply Permutation_map. }
  destruct (dict_get key a1) as [v|] eqn:E1.
  - symmetry. apply In_dict_get; [assumption|].
    eapply Permutation_in; [exact Hp|]. now apply dict_get_Some_In.
  - symmetry. apply dict_get_None_keys. apply dict_get_None_keys in E1.
    intros Hin. apply E1. unfold dict_keys in *.
    eapply Permutation_in; [|exact Hin].
    apply Permutation_map. now apply Permutation_sym.
Qed.

(** ** The query string *)

Lemma fold_parts_acc (params : dict) (acc : list string) :
  fold_left (fun parts kv => (parts ++ item_parts (fst kv) (snd kv))%list)
            params acc
  = (acc ++ flat_map (fun kv => item_parts (fst kv) (snd kv)) params)%list.
Proof.
  revert acc. induction params as [|kv params IH]; intros acc; simpl.
  - now rewrite app_nil_r.
  - rewrite IH. now rewrite app_assoc.
Qed.

Lemma query_parts_flat_map (params : dict) :
  query_parts params = flat_map (fun kv => item_parts (fst kv) (snd kv)) params.
Proof. unfold query_parts. now rewrite fold_parts_acc. Qed.

Lemma item_parts_pairs (key : string) (value : pyval) :
  item_parts key value = map render_pair (item_pairs key value).
Proof.
  destruct value as [| | |s|l|]; try reflexivity.
  - now destruct s.
  - simpl. rewrite map_map. reflexivity.
Qed.

Lemma query_parts_pairs (params : dict) :
  query_parts params = map render_pair (query_pairs params).
Proof.
  rewrite query_parts_flat_map. unfold query_pairs.
  induction params as [|kv params IH]; simpl; [reflexivity|].
  now rewrite map_app, IH, item_parts_pairs.
Qed.

Lemma item_pairs_key (key : string) (value : pyval) (p : string * string) :
  In p (item_pairs key value) -> fst p = key.
Proof.
  destruct value as [| | |s|l|]; simpl; try tauto;
    try (intros [<-|[]]; reflexivity).
  - destruct s; simpl; [tauto | intros [<-|[]]; reflexivity].
  - rewrite in_map_iff. intros (v & <- & _). reflexivity.
Qed.

Lemma filter_all {A} (f : A -> bool) (l : list A) :
  (forall x, In x l -> f x = true) -> filter f l = l.
Proof.
  induction l as [|a l IH]; simpl; intros H; [reflexivity|].
  rewrite (H a (or_introl eq_refl)). f_equal. apply IH. auto.
Qed.

Lemma filter_none {A} (f : A -> bool) (l : list A) :
  (forall x, In x l -> f x = false) -> filter f l = [].
Proof.
  induction l as [|a l IH]; simpl; intros H; [reflexivity|].
  rewrite (H a (or_introl eq_refl)). apply IH. auto.
Qed.

Lemma item_pairs_same (key : string) (value : pyval) :
  filter (key_is key) (item_pairs key value) = item_pairs key value.
Proof.
  apply filter_all. intros p Hp. unfold key_is.
  rewrite (item_pairs_key _ _ _ Hp). apply String.eqb_refl.
Qed.

Lemma item_pairs_other (key k : string) (value : pyval) :
  k <> key -> filter (key_is key) (item_pairs k value) = [].
Proof.
  intros Hne. apply filter_none. intros p Hp. unfold key_is.
  rewrite (item_pairs_key _ _ _ Hp). now apply String.eqb_neq.
Qed.

Lemma pairs_of_absent (key : string) (params : dict) :
  dict_get key params = None -> pairs_of key params = [].
Proof.
  unfold pairs_of, query_pairs.
  induction params as [|[k w] params IH]; simpl; [reflexivity|].
  destruct (String.eqb_spec key k) as [->|Hne]; [discriminate|].
  intros H. rewrite filter_app, item_pairs_other by congruence.
  now apply IH.
Qed.

Lemma pairs_of_present (key : string) (v : pyval) (params : dict) :
  dict_wf params -> dict_get key params = Some v ->
  pairs_of key params = item_pairs key v.
Proof.
  unfold pairs_of, query_pairs.
  induction params as [|[k w] params IH]; simpl; [discriminate|].
  intros Hwf. apply dict_wf_tail in Hwf as [Hk Hwf]. simpl in Hk.
  rewrite filter_app.
  destruct (String.eqb_spec key k) as [->|Hne].
  - intros [= ->]. rewrite item_pairs_same.
    fold (query_pairs params). fold (pairs_of k params).
    rewrite pairs_of_absent by assumption. apply app_nil_r.
  - intros H. rewrite item_pairs_other by congruence. now apply IH.
Qed.

Lemma query_parts_remove (key : string) (v : pyval) (params : dict) :
  dict_wf params -> dict_get key params = Some v -> item_parts key v = [] ->
  query_parts (dict_remove key params) = query_parts params.
Proof.
  rewrite !query_parts_flat_map.
  induction params as [|[k w] params IH]; simpl; [discriminate|].
  intros Hwf. apply dict_wf_tail in Hwf as [Hk Hwf]. simpl in Hk.
  destruct (String.eqb_spec key k) as [->|Hne].
  - intros [= ->] ->. simpl. now rewrite dict_remove_absent.
  - intros H Hv. simpl. f_equal. now apply IH.
Qed.

(** The URL is the base path, followed when there are pairs by [?] and
    the pairs joined with [&]. *)
Lemma build_url_pairs (compilation endpoint : pyval) (params : dict) :
  build_url compilation endpoint params =
  BASE_URL ++ "/" ++ py_str compilation ++ "/" ++ py_str endpoint
  ++ match query_pairs params with
     | [] => ""
     | pairs => "?" ++ String.concat "&" (map render_pair pairs)
     end.
Proof.
  unfold build_url. rewrite query_parts_pairs.
  destruct (query_pairs params) as [|p ps]; cbn [map].
  - now rewrite append_nil_r.
  - now rewrite !append_assoc.
Qed.

Lemma build_url_contains (compilation endpoint : pyval) (params : dict)
      (p : string * string) :
  In p (query_pairs params) ->
  Contains (build_url compilation endpoint params) (render_pair p).
Proof.
  intros Hin. rewrite build_url_pairs.
  destruct (query_pairs params) as [|q qs] eqn:E; [contradiction|].
  do 6 apply Contains_app_l.
  apply Contains_concat. now apply in_map.
Qed.

(** ** [extract_params] in closed form *)

Lemma pick_scalar_keys (args : dict) (keys : list string) (k : string) :
  In k (dict_keys (flat_map (pick_scalar args) keys)) -> In k keys.
Proof.
  unfold dict_keys.
  induction keys as [|k' keys IH]; simpl; [tauto|].
  rewrite map_app, in_app_iff. intros [H|H]; [left | right; auto].
  unfold pick_scalar in H.
  destruct (dict_get k' args) as [v|]; [|contradiction].
  destruct (is_None v); simpl in H; tauto.
Qed.

Lemma copy_scalar_fresh (args params : dict) (key : string) :
  dict_get key params = None ->
  copy_scalar args params key = (params ++ pick_scalar args key)%list.
Proof.
  intros H. unfold copy_scalar, pick_scalar.
  destruct (dict_get key args) as [v|]; [|now rewrite app_nil_r].
  destruct (is_None v); [now rewrite app_nil_r|].
  now apply dict_set_fresh.
Qed.

Lemma copy_repeated_fresh (args params : dict) (key : string) :
  dict_get key params = None ->
  copy_repeated args params key = (params ++ pick_repeated args key)%list.
Proof.
  intros H. unfold copy_repeated, pick_repeated.
  destruct (dict_get key args) as [v|]; [|now rewrite app_nil_r].
  destruct (truthy v); [|now rewrite app_nil_r].
  now apply dict_set_fresh.
Qed.

Lemma pick_scalar_get_other (args : dict) (k key : string) :
  k <> key -> dict_get k (pick_scalar args key) = None.
Proof.
  intros Hne. unfold pick_scalar.
  destruct (dict_get key args) as [v|]; [|reflexivity].
  destruct (is_None v); [reflexivity|]. simpl.
  now destruct (String.eqb_spec k key).
Qed.

Lemma pick_repeated_get_other (args : dict) (k key : string) :
  k <> key -> dict_get k (pick_repeated args key) = None.
Proof.
  intros Hne. unfold pick_repeated.
  destruct (dict_get key args) as [v|]; [|reflexivity].
  destruct (truthy v); [|reflexivity]. simpl.
  now destruct (String.eqb_spec k key).
Qed.

Lemma fold_copy_scalar (args : dict) (keys : list string) (acc : dict) :
  NoDup keys ->
  (forall k, In k keys -> dict_get k acc = None) ->
  fold_left (copy_scalar args) keys acc
  = (acc ++ flat_map (pick_scalar args) keys)%list.
Proof.
  revert acc. induction keys as [|key keys IH]; intros acc Hnd Hacc; simpl.
  - now rewrite app_nil_r.
  - inversion Hnd as [|? ? Hk Hnd']; subst.
    rewrite copy_scalar_fresh by (apply Hacc; now left).
    rewrite IH; [now rewrite <- app_assoc | assumption |].
    intros k Hin. rewrite dict_get_app, Hacc by now right.
    apply pick_scalar_get_other. intros ->. contradiction.
Qed.

Lemma NoDup_scalar_keys : NoDup scalar_keys.
Proof.
  unfold scalar_keys.
  repeat (constructor; [simpl; intuition discriminate|]). constructor.
Qed.

Lemma NoDup_param_order : NoDup param_order.
Proof.
  unfold param_order, scalar_keys.
  repeat (constructor; [simpl; intuition discriminate|]). constructor.
Qed.

Lemma extract_params_closed (args : dict) :
  extract_params args
  = (flat_map (pick_scalar args) scalar_keys
     ++ pick_repeated args "rfilter" ++ pick_repeated args "sfilter")%list.
Proof.
  unfold extract_params.
  rewrite fold_copy_scalar; [|apply NoDup_scalar_keys | reflexivity].
  cbn [app].
  assert (Hfresh : forall k, ~ In k scalar_keys ->
            dict_get k (flat_map (pick_scalar args) scalar_keys) = None).
  { intros k Hk. apply dict_get_None_keys. intros Hin. apply Hk.
    now apply pick_scalar_keys in Hin. }
  rewrite (copy_repeated_fresh args _ "rfilter")
    by (apply Hfresh; simpl; intuition discriminate).
  rewrite copy_repeated_fresh, <- app_assoc; [reflexivity|].
  rewrite dict_get_app, Hfresh by (simpl; intuition discriminate).
  now apply pick_repeated_get_other.
Qed.

(** Every item of the extracted parameters is an item of the caller's
    arguments, and is not [None]. *)
Lemma extract_params_In (args : dict) (k : string) (v : pyval) :
  In (k, v) (extract_params args) ->
  dict_get k args = Some v /\ is_None v = false.
Proof.
  rewrite extract_params_closed, !in_app_iff, in_flat_map.
  assert (Hs : forall key, In (k, v) (pick_scalar args key) ->
                 dict_get k args = Some v /\ is_None v = false).
  { intros key. unfold pick_scalar.
    destruct (dict_get key args) as [w|] eqn:E; [|contradiction].
    destruct (is_None w) eqn:En; [contradiction|].
    intros [[= <- <-]|[]]. auto. }
  assert (Hr : forall key, In (k, v) (pick_repeated args key) ->
                 dict_get k args = Some v /\ is_None v = false).
  { intros key. unfold pick_repeated.
    destruct (dict_get key args) as [w|] eqn:E; [|contradiction].
    destruct (truthy w) eqn:En; [|contradiction].
    intros [[= <- <-]|[]]. split; [assumption|]. now destruct w. }
  intros [(key & _ & H)|[H|H]]; eauto.
Qed.

Lemma extract_params_get (args : dict) (k : string) (v : pyval) :
  dict_get k (extract_params args) = Some v -> dict_get k args = Some v.
Proof.
  intros H. apply dict_get_Some_In in H. now apply extract_params_In in H.
Qed.

Lemma extract_params_absent (args : dict) (k : string) :
  dict_get k args = None -> dict_get k (extract_params args) = None.
Proof.
  intros H. destruct (dict_get k (extract_params args)) as [v|] eqn:E;
    [|reflexivity].
  apply extract_params_get in E. congruence.
Qed.

Lemma pick_scalar_filter (args : dict) (keys : list string) :
  dict_keys (flat_map (pick_scalar args) keys)
  = filter (keeps_scalar args) keys.
Proof.
  unfold dict_keys.
  induction keys as [|k keys IH]; simpl; [reflexivity|].
  rewrite map_app, IH. unfold pick_scalar, keeps_scalar.
  destruct (dict_get k args) as [v|]; [|reflexivity].
  now destruct (is_None v).
Qed.

Lemma pick_repeated_filter (args : dict) (k : string) :
  dict_keys (pick_repeated args k) = filter (keeps_repeated args) [k].
Proof.
  unfold pick_repeated, keeps_repeated. simpl.
  destruct (dict_get k args) as [v|]; [|reflexivity].
  now destruct (truthy v).
Qed.

Lemma extract_params_keys (args : dict) :
  dict_keys (extract_params args)
  = filter (fun k => if existsb (String.eqb k) scalar_keys
                     then keeps_scalar args k else keeps_repeated args k)
           param_order.
Proof.
  rewrite extract_params_closed. unfold dict_keys, param_order.
  rewrite !map_app, filter_app.
  fold (dict_keys (flat_map (pick_scalar args) scalar_keys)).
  fold (dict_keys (pick_repeated args "rfilter")).
  fold (dict_keys (pick_repeated args "sfilter")).
  rewrite pick_scalar_filter, !pick_repeated_filter.
  match goal with
  | |- _ = (filter ?F _ ++ _)%list =>
      assert (E : filter F scalar_keys = filter (keeps_scalar args) scalar_keys)
  end;
    [|rewrite E; f_equal; cbn;
      destruct (keeps_repeated args "rfilter"),
               (keeps_repeated args "sfilter"); reflexivity].
  apply filter_ext_in. intros k Hk.
  replace (existsb (String.eqb k) scalar_keys) with true; [reflexivity|].
  symmetry. apply existsb_exists. exists k. split; [assumption|].
  apply String.eqb_refl.
Qed.

Lemma extract_params_wf (args : dict) : dict_wf (extract_params args).
Proof.
  unfold dict_wf. rewrite extract_params_keys.
  apply NoDup_filter, NoDup_param_order.
Qed.

Lemma keys_in_order (d : dict) (f : string -> bool) (order : list string) :
  dict_keys d = filter f order ->
  dict_keys d = filter (fun k => dict_in k d) order.
Proof.
  intros H. rewrite H at 1. apply filter_ext_in. intros k Hk.
  unfold dict_in. destruct (dict_get k d) as [v|] eqn:E.
  - assert (Hin : In k (dict_keys d)).
    { apply dict_get_Some_In in E. change k with (fst (k, v)).
      now apply in_map. }
    rewrite H in Hin. now apply filter_In in Hin.
  - apply dict_get_None_keys in E. rewrite H in E.
    destruct (f k) eqn:Ef; [|reflexivity].
    exfalso. apply E. apply filter_In. auto.
Qed.

Lemma fold_left_pointwise {A B} (f g : A -> B -> A) (l : list B) (a : A) :
  (forall x y, f x y = g x y) -> fold_left f l a = fold_left g l a.
Proof.
  intros H. revert a. induction l as [|b l IH]; intros a; simpl;
    [reflexivity|]. now rewrite H, IH.
Qed.

(** [extract_params] reads its argument through lookups only. *)
Lemma extract_params_lookup (a1 a2 : dict) :
  (forall key, dict_get key a1 = dict_get key a2) ->
  extract_params a1 = extract_params a2.
Proof.
  intros H. unfold extract_params.
  rewrite (fold_left_pointwise (copy_scalar a1) (copy_scalar a2)).
  - unfold copy_repeated. now rewrite !H.
  - intros params k. unfold copy_scalar. now rewrite H.
Qed.

(** ** Running the handlers *)

Section GatewayProperties.

Variable http_get : string -> get_result.
Variable json_reformat : string -> outcome string.

Lemma fetch_run (url : string) (log : list string) :
  fetch http_get url log = (fetch_outcome (http_get url), (log ++ [url])%list).
Proof.
  unfold fetch, bind, client_get, fetch_outcome.
  destruct (http_get url) as [status body|e]; [|reflexivity].
  now destruct (is_success status).
Qed.

Lemma query_records_run (endpoint : string) (args : dict)
      (log : list string) :
  query_records http_get endpoint args log =
  match dict_get "compilation" args with
  | None => (Raised (KeyError "compilation"), log)
  | Some c =>
      let url := build_url c (PStr endpoint) (extract_params args) in
      (match fetch_outcome (http_get url) with
       | Returned result => Returned (text_content (records_text url result))
       | Raised e => Raised e
       end, (log ++ [url])%list)
  end.
Proof.
  unfold query_records, subscript, bind at 1.
  destruct (dict_get "compilation" args) as [c|]; [|reflexivity].
  unfold ret at 1. unfold bind. rewrite fetch_run.
  now destruct (fetch_outcome _).
Qed.

Lemma count_run (args : dict) (log : list string) :
  dispatch http_get json_reformat "snaptron_get_result_count" args log =
  match dict_get "compilation" args with
  | None => (Raised (KeyError "compilation"), log)
  | Some c =>
      let url := build_url c (PStr "snaptron")
                   (dict_set "fields" (PStr "rc") (extract_params args)) in
      (match fetch_outcome (http_get url) with
       | Returned result =>
           Returned (text_content
                       ("Query URL: " ++ url ++ LF ++ LF
                        ++ "Result count response:" ++ LF ++ result))
       | Raised e => Raised e
       end, (log ++ [url])%list)
  end.
Proof.
  change (dispatch http_get json_reformat "snaptron_get_result_count" args)
    with (compilation <- subscript args "compilation" ;;
          let params := extract_params args in
          let params := dict_set "fields" (PStr "rc") params in
          let url := build_url compilation (PStr "snaptron") params in
          result <- fetch http_get url ;;
          ret (text_content
                 ("Query URL: " ++ url ++ LF ++ LF
                  ++ "Result count response:" ++ LF ++ result))).
  unfold subscript, bind at 1.
  destruct (dict_get "compilation" args) as [c|]; [|reflexivity].
  unfold ret at 1. unfold bind. rewrite fetch_run.
  now destruct (fetch_outcome _).
Qed.

Lemma build_run (args : dict) (log : list string) :
  dispatch http_get json_reformat "snaptron_build_url" args log =
  match dict_get "compilation" args with
  | None => (Raised (KeyError "compilation"), log)
  | Some c =>
      let endpoint := match dict_get "endpoint" args with
                      | Some v => v
                      | None => PStr "snaptron"
                      end in
      (Returned (text_content
                   (built_text (build_url c endpoint (extract_params args)))),
       log)
  end.
Proof.
  change (dispatch http_get json_reformat "snaptron_build_url" args)
    with (compilation <- subscript args "compilation" ;;
          let endpoint := match dict_get "endpoint" args with
                          | Some v => v
                          | None => PStr "snaptron"
                          end in
          let params := extract_params args in
          let url := build_url compilation endpoint params in
          ret (text_content (built_text url))).
  unfold subscript, bind.
  now destruct (dict_get "compilation" args).
Qed.

Lemma registry_run (args : dict) (log : list string) :
  dispatch http_get json_reformat "snaptron_list_compilations" args log =
  (match fetch_outcome (http_get registry_url) with
   | Returned result =>
       match json_reformat result with
       | Returned formatted =>
           Returned (text_content
                       ("Snaptron Compilation Registry:" ++ LF ++ LF
                        ++ formatted))
       | Raised (JSONDecodeError _) =>
           Returned (text_content ("Registry response:" ++ LF ++ result))
       | Raised e => Raised e
       end
   | Raised e => Raised e
   end, (log ++ [registry_url])%list).
Proof.
  change (dispatch http_get json_reformat "snaptron_list_compilations" args)
    with (result <- fetch http_get registry_url ;;
          match json_reformat result with
          | Returned formatted =>
              ret (text_content
                     ("Snaptron Compilation Registry:" ++ LF ++ LF
                      ++ formatted))
          | Raised (JSONDecodeError _) =>
              ret (text_content ("Registry response:" ++ LF ++ result))
          | Raised e => raise e
          end).
  unfold bind. rewrite fetch_run.
  destruct (fetch_outcome _) as [result|e]; [|reflexivity].
  destruct (json_reformat result) as [formatted|[]]; reflexivity.
Qed.

Lemma dispatch_unknown (name : string) (args : dict) :
  ~ In name tool_names ->
  dispatch http_get json_reformat name args = ret (text_content ("Unknown tool: " ++ name)).
Proof.
  intros H. unfold dispatch.
  repeat match goal with
  | |- context [String.eqb name ?t] =>
      destruct (String.eqb_spec name t) as [->|_];
      [exfalso; apply H; simpl; tauto|]
  end.
  reflexivity.
Qed.

Lemma tool_names_cases (name : string) :
  In name tool_names ->
  name = "snaptron_query_junctions" \/ name = "snaptron_query_genes"
  \/ name = "snaptron_query_samples" \/ name = "snaptron_list_compilations"
  \/ name = "snaptron_get_result_count" \/ name = "snaptron_build_url".
Proof. simpl. intuition. Qed.

Lemma on_exception_text (e : exn) (log : list string) :
  on_exception e log = (Returned (text_content (error_text e)), log).
Proof. now destruct e. Qed.

Lemma try_except_run (m : M (list TextContent)) (log log' : list string)
      (o : outcome (list TextContent)) :
  m log = (o, log') ->
  try_except m on_exception log = (answered o, log').
Proof.
  intros H. unfold try_except. rewrite H.
  destruct o as [a|e]; [reflexivity | apply on_exception_text].
Qed.

(** [call_tool] is [dispatch] with every raised exception answered. *)
Lemma call_tool_run (name : string) (args : dict) (log : list string) :
  call_tool http_get json_reformat name args log =
  (answered (fst (dispatch http_get json_reformat name args log)),
   snd (dispatch http_get json_reformat name args log)).
Proof.
  unfold call_tool. apply try_except_run. now destruct (dispatch _ _ _ _ _).
Qed.

Lemma dispatch_junctions (args : dict) :
  dispatch http_get json_reformat "snaptron_query_junctions" args
  = query_records http_get "snaptron" args.
Proof. reflexivity. Qed.

Lemma dispatch_genes (args : dict) :
  dispatch http_get json_reformat "snaptron_query_genes" args
  = query_records http_get "genes" args.
Proof. reflexivity. Qed.

Lemma dispatch_samples (args : dict) :
  dispatch http_get json_reformat "snaptron_query_samples" args
  = query_records http_get "samples" args.
Proof. reflexivity. Qed.

(** What an invocation requested, and what became of a failed fetch. *)
Lemma call_tool_requests (name : string) (args : dict) (url : string) :
  In url (snd (call_tool http_get json_reformat name args [])) ->
  snd (call_tool http_get json_reformat name args []) = [url]
  /\ forall e, fetch_outcome (http_get url) = Raised e ->
       fst (call_tool http_get json_reformat name args [])
       = Returned (text_content (error_text e)).
Proof.
  rewrite call_tool_run. cbn [fst snd].
  assert (Hq : forall endpoint,
    In url (snd (query_records http_get endpoint args [])) ->
    snd (query_records http_get endpoint args []) = [url]
    /\ forall e, fetch_outcome (http_get url) = Raised e ->
         answered (fst (query_records http_get endpoint args []))
         = Returned (text_content (error_text e))).
  { intros endpoint. rewrite query_records_run.
    destruct (dict_get "compilation" args) as [c|];
      cbv zeta; cbn [fst snd app In]; [|contradiction].
    intros [<-|[]]. split; [reflexivity|].
    intros e ->. reflexivity. }
  destruct (in_dec string_dec name tool_names) as [Hin|Hout].
  - apply tool_names_cases in Hin.
    destruct Hin as [-> | [-> | [-> | [-> | [-> | -> ]]]]].
    + rewrite dispatch_junctions. apply Hq.
    + rewrite dispatch_genes. apply Hq.
    + rewrite dispatch_samples. apply Hq.
    + rewrite registry_run. cbn [fst snd app In].
      intros [<-|[]]. split; [reflexivity|].
      intros e ->. reflexivity.
    + rewrite count_run.
      destruct (dict_get "compilation" args) as [c|];
        cbv zeta; cbn [fst snd app In]; [|contradiction].
      intros [<-|[]]. split; [reflexivity|].
      intros e ->. reflexivity.
    + rewrite build_run.
      destruct (dict_get "compilation" args) as [c|];
        cbv zeta; cbn [fst snd app In]; contradiction.
  - rewrite dispatch_unknown by assumption. cbn. contradiction.
Qed.

Lemma dispatch_answer (name : string) (args : dict) (log : list string) :
  exists t,
    answered (fst (dispatch http_get json_reformat name args log))
    = Returned (text_content t).
Proof.
  assert (Hq : forall endpoint, exists t,
    answered (fst (query_records http_get endpoint args log))
    = Returned (text_content t)).
  { intros endpoint. rewrite query_records_run.
    destruct (dict_get "compilation" args) as [c|]; cbv zeta; cbn [fst];
      [|eexists; reflexivity].
    destruct (fetch_outcome _); eexists; reflexivity. }
  destruct (in_dec string_dec name tool_names) as [Hin|Hout].
  - apply tool_names_cases in Hin.
    destruct Hin as [-> | [-> | [-> | [-> | [-> | -> ]]]]].
    + rewrite dispatch_junctions. apply Hq.
    + rewrite dispatch_genes. apply Hq.
    + rewrite dispatch_samples. apply Hq.
    + rewrite registry_run. cbn [fst].
      destruct (fetch_outcome _) as [result|e]; [|eexists; reflexivity].
      destruct (json_reformat result) as [formatted|[]];
        eexists; reflexivity.
    + rewrite count_run.
      destruct (dict_get "compilation" args) as [c|]; cbv zeta; cbn [fst];
        [|eexists; reflexivity].
      destruct (fetch_outcome _); eexists; reflexivity.
    + rewrite build_run.
      destruct (dict_get "compilation" args) as [c|]; cbv zeta; cbn [fst];
        eexists; reflexivity.
  - rewrite dispatch_unknown by assumption. eexists; reflexivity.
Qed.

Lemma call_tool_lookup (name : string) (a1 a2 : dict) (log : list string) :
  (forall key, dict_get key a1 = dict_get key a2) ->
  call_tool http_get json_reformat name a1 log
  = call_tool http_get json_reformat name a2 log.
Proof.
  intros H. unfold call_tool, try_except, dispatch, query_records, subscript.
  rewrite (extract_params_lookup a1 a2 H), !H. reflexivity.
Qed.

(** *** The claims about the gateway *)

(** C1: every invocation of [call_tool] returns, and returns exactly one
    text item: an exception raised while dispatching (HTTP status
    failure, request failure, a missing [compilation] argument, anything
    else) is answered with its error text, so [call_tool] never raises. *)
Theorem call_tool_always_answers :
  forall (name : string) (arguments : dict) (log : list string),
    (exists t log',
       call_tool http_get json_reformat name arguments log
       = (Returned [ {| type := "text"; text := t |} ], log'))
    /\ (forall e log',
          dispatch http_get json_reformat name arguments log
          = (Raised e, log') ->
          call_tool http_get json_reformat name arguments log
          = (Returned [ {| type := "text"; text := error_text e |} ], log'))
    /\ (In name tool_names -> name <> "snaptron_list_compilations" ->
        dict_get "compilation" arguments = None ->
        call_tool http_get json_reformat name arguments log
        = (Returned [ {| type := "text"; text := "Error: 'compilation'" |} ],
           log)).
Proof.
  intros name arguments log. split; [|split].
  - destruct (dispatch_answer name arguments log) as [t Ht].
    exists t, (snd (dispatch http_get json_reformat name arguments log)).
    now rewrite call_tool_run, Ht.
  - intros e log' H. now rewrite call_tool_run, H.
  - intros Hin Hne Hc. rewrite call_tool_run.
    apply tool_names_cases in Hin.
    destruct Hin as [-> | [-> | [-> | [-> | [-> | -> ]]]]];
      try congruence;
      rewrite ?dispatch_junctions, ?dispatch_genes, ?dispatch_samples,
        ?query_records_run, ?count_run, ?build_run, Hc; reflexivity.
Qed.

(** C5: the count-only tool requests exactly one URL, built from the
    extracted parameters with [fields] set to [rc] whatever the caller
    passed for it: the query string has the one pair [fields=rc] for that
    key; a body fetched with a 2xx status is returned as it is, after the
    URL, with no record count computed. *)
Theorem count_tool_forces_fields :
  forall (arguments : dict) (compilation : pyval) (log : list string),
    dict_get "compilation" arguments = Some compilation ->
    let params := dict_set "fields" (PStr "rc") (extract_params arguments) in
    let url := build_url compilation (PStr "snaptron") params in
    snd (call_tool http_get json_reformat "snaptron_get_result_count"
           arguments log) = (log ++ [url])%list
    /\ dict_get "fields" params = Some (PStr "rc")
    /\ pairs_of "fields" params = [("fields", "rc")]
    /\ Contains url "fields=rc"
    /\ (forall status_code body,
          http_get url = Response status_code body ->
          (200 <= status_code <= 299)%Z ->
          fst (call_tool http_get json_reformat "snaptron_get_result_count"
                 arguments log)
          = Returned [ {| type := "text";
                          text := "Query URL: " ++ url ++ LF ++ LF
                                  ++ "Result count response:" ++ LF
                                  ++ body |} ]).
Proof.
  intros arguments compilation log Hc params url.
  assert (Hget : dict_get "fields" params = Some (PStr "rc")).
  { unfold params. now rewrite dict_get_set. }
  assert (Hpairs : pairs_of "fields" params = [("fields", "rc")]).
  { rewrite (pairs_of_present "fields" (PStr "rc")); [reflexivity | | exact Hget].
    apply dict_set_wf, extract_params_wf. }
  rewrite call_tool_run, count_run, Hc. cbv zeta. cbn [fst snd].
  fold params. fold url.
  repeat split; try assumption.
  - apply (build_url_contains compilation (PStr "snaptron") params
             ("fields", "rc")).
    assert (Hin : In ("fields", "rc") (pairs_of "fields" params))
      by (rewrite Hpairs; now left).
    now apply filter_In in Hin.
  - intros status_code body Hresp Hok. rewrite Hresp.
    unfold fetch_outcome, is_success.
    replace ((200 <=? status_code) && (status_code <=? 299))%Z with true
      by (symmetry; apply andb_true_iff; split; apply Z.leb_le; lia).
    reflexivity.
Qed.

(** C6: when the URL an invocation requests is answered with a status
    outside 200..299, [call_tool] returns the one text
    [HTTP error <status>: <body>], which holds the status code and the
    body, and the invocation has made exactly that one request. *)
Theorem http_status_failure_is_soft_error :
  forall (name : string) (arguments : dict) (url : string)
         (status_code : Z) (body : string),
    In url (snd (call_tool http_get json_reformat name arguments [])) ->
    http_get url = Response status_code body ->
    (status_code < 200 \/ 299 < status_code)%Z ->
    let t := "HTTP error " ++ str_int status_code ++ ": " ++ body in
    call_tool http_get json_reformat name arguments []
    = (Returned [ {| type := "text"; text := t |} ], [url])
    /\ Contains t (str_int status_code)
    /\ Contains t body.
Proof.
  intros name arguments url status_code body Hin Hresp Hbad t.
  destruct (call_tool_requests name arguments url Hin) as [Hlog Hfail].
  assert (Hout : fetch_outcome (http_get url)
                 = Raised (HTTPStatusError status_code body)).
  { rewrite Hresp. unfold fetch_outcome, is_success.
    replace ((200 <=? status_code) && (status_code <=? 299))%Z with false;
      [reflexivity|].
    symmetry. apply andb_false_iff.
    destruct Hbad; [left | right]; apply Z.leb_gt; lia. }
  specialize (Hfail _ Hout). split; [|split].
  - rewrite (surjective_pairing (call_tool _ _ _ _ _)), Hlog, Hfail.
    reflexivity.
  - apply Contains_middle.
  - unfold t. apply Contains_app_l, Contains_app_l, Contains_suffix.
Qed.

(** C7: for a name that is not one of the six of the catalogue,
    [call_tool] returns (it does not raise) the one text
    [Unknown tool: <name>], which holds the name, and requests nothing. *)
Theorem unknown_tool_is_soft_error :
  forall (name : string) (arguments : dict) (log : list string),
    ~ In name ["snaptron_query_junctions"; "snaptron_query_genes";
               "snaptron_query_samples"; "snaptron_list_compilations";
               "snaptron_get_result_count"; "snaptron_build_url"] ->
    tool_names
    = ["snaptron_query_junctions"; "snaptron_query_genes";
       "snaptron_query_samples"; "snaptron_list_compilations";
       "snaptron_get_result_count"; "snaptron_build_url"]
    /\ call_tool http_get json_reformat name arguments log
       = (Returned [ {| type := "text"; text := "Unknown tool: " ++ name |} ],
          log)
    /\ Contains ("Unknown tool: " ++ name) name.
Proof.
  intros name arguments log Hout. split; [reflexivity|]. split.
  - rewrite call_tool_run, dispatch_unknown by exact Hout. reflexivity.
  - apply Contains_suffix.
Qed.

(** C8: the build-only tool requests nothing, whatever the arguments
    and whatever the remote service would answer; with a [compilation]
    it returns the one text holding the built URL and the [curl -L]
    line for it. *)
Theorem build_tool_never_fetches :
  forall (arguments : dict) (log : list string),
    snd (call_tool http_get json_reformat "snaptron_build_url"
           arguments log) = log
    /\ (forall http_get' json_reformat',
          call_tool http_get' json_reformat' "snaptron_build_url"
            arguments log
          = call_tool http_get json_reformat "snaptron_build_url"
              arguments log)
    /\ (forall compilation,
          dict_get "compilation" arguments = Some compilation ->
          let endpoint := match dict_get "endpoint" arguments with
                          | Some v => v
                          | None => PStr "snaptron"
                          end in
          let url := build_url compilation endpoint
                       (extract_params arguments) in
          fst (call_tool http_get json_reformat "snaptron_build_url"
                 arguments log)
          = Returned
              [ {| type := "text";
                   text := "Built Snaptron URL:" ++ LF ++ url ++ LF ++ LF
                           ++ "You can test this with:" ++ LF
                           ++ "  curl -L " ++ DQUOTE ++ url ++ DQUOTE |} ]).
Proof.
  intros arguments log. split; [|split].
  - rewrite call_tool_run, build_run.
    now destruct (dict_get "compilation" arguments).
  - intros http_get' json_reformat'. reflexivity.
  - intros compilation Hc endpoint url.
    rewrite call_tool_run, build_run, Hc. reflexivity.
Qed.

(** C10: the catalogue lists [endpoint] among the required arguments of
    the build-only tool, yet with [compilation] present and [endpoint]
    absent the tool answers with the URL built for the endpoint
    [snaptron], not with an error text. *)
Theorem build_tool_defaults_endpoint :
  forall (arguments : dict) (compilation : pyval) (log : list string),
    dict_get "compilation" arguments = Some compilation ->
    dict_get "endpoint" arguments = None ->
    let url := build_url compilation (PStr "snaptron")
                 (extract_params arguments) in
    (exists tool, In tool list_tools
                  /\ name tool = "snaptron_build_url"
                  /\ In "endpoint" (required tool))
    /\ call_tool http_get json_reformat "snaptron_build_url" arguments log
       = (Returned [ {| type := "text"; text := built_text url |} ], log)
    /\ url = BASE_URL ++ "/" ++ py_str compilation ++ "/" ++ "snaptron"
             ++ match query_pairs (extract_params arguments) with
                | [] => ""
                | pairs => "?" ++ String.concat "&" (map render_pair pairs)
                end.
Proof.
  intros arguments compilation log Hc He url. split; [|split].
  - eexists. split; [do 5 right; left; reflexivity|].
    split; [reflexivity | simpl; tauto].
  - rewrite call_tool_run, build_run, Hc, He. reflexivity.
  - apply build_url_pairs.
Qed.

(** C9: [extract_params] lists the keys it keeps in the fixed order
    regions, ids, sids, contains, exact, either, header, fields, rfilter,
    sfilter; two argument dictionaries with the same items, in whatever
    insertion order, give the same parameters, hence the same URL and the
    same answer for every tool. *)
Theorem url_invariant_under_argument_order :
  (forall args : dict,
     dict_keys (extract_params args)
     = filter (fun k => dict_in k (extract_params args))
         ["regions"; "ids"; "sids"; "contains"; "exact"; "either";
          "header"; "fields"; "rfilter"; "sfilter"])
  /\ (forall a1 a2 : dict,
        (forall key, dict_get key a1 = dict_get key a2) ->
        extract_params a1 = extract_params a2
        /\ forall name log,
             call_tool http_get json_reformat name a1 log
             = call_tool http_get json_reformat name a2 log)
  /\ (forall a1 a2 : dict,
        dict_wf a1 -> Permutation a1 a2 ->
        extract_params a1 = extract_params a2
        /\ (forall compilation endpoint,
              build_url compilation endpoint (extract_params a1)
              = build_url compilation endpoint (extract_params a2))
        /\ forall name log,
             call_tool http_get json_reformat name a1 log
             = call_tool http_get json_reformat name a2 log).
Proof.
  split; [|split].
  - intros args.
    apply (keys_in_order _ _ param_order (extract_params_keys args)).
  - intros a1 a2 H. split; [now apply extract_params_lookup|].
    intros name log. now apply call_tool_lookup.
  - intros a1 a2 Hwf Hp.
    pose proof (perm_dict_get a1 a2 Hwf Hp) as H.
    split; [now apply extract_params_lookup|]. split.
    + intros c e. now rewrite (extract_params_lookup a1 a2 H).
    + intros name log. now apply call_tool_lookup.
Qed.

End GatewayProperties.

(** ** The response summary *)

Lemma split_lines_cons (s : string) :
  exists l ls, split_lines s = l :: ls.
Proof.
  destruct s as [|c s]; simpl; [now eexists; eexists|].
  destruct (Ascii.eqb c "010"); [now eexists; eexists|].
  destruct (split_lines s); now eexists; eexists.
Qed.

Lemma is_empty_true (s : string) : is_empty s = true -> s = "".
Proof. now destruct s. Qed.

Lemma lstrip_rstrip (s : string) : lstrip (rstrip s) = rstrip (lstrip s).
Proof.
  induction s as [|c s IH]; [reflexivity|].
  cbn [lstrip rstrip].
  destruct (is_space c) eqn:Ec; cbn [andb].
  - destruct (is_empty (rstrip s)) eqn:Er.
    + apply is_empty_true in Er. rewrite <- IH, Er. reflexivity.
    + cbn [lstrip]. now rewrite Ec.
  - cbn [lstrip rstrip]. now rewrite Ec.
Qed.

Lemma strip_by_rstrip (a b : string) : rstrip a = rstrip b -> strip a = strip b.
Proof. unfold strip. rewrite <- !lstrip_rstrip. now intros ->. Qed.

Lemma strip_blank (l : string) : rstrip l = "" -> strip l = "".
Proof. intros H. unfold strip. now rewrite <- lstrip_rstrip, H. Qed.

Lemma strip_space_cons (c : ascii) (s : string) :
  is_space c = true -> strip (String c s) = strip s.
Proof. intros H. unfold strip. cbn [lstrip]. now rewrite H. Qed.

Lemma count_trimmed_cons (l : string) (ls : list string) :
  count_trimmed (l :: ls)
  = (if is_record (strip l) then 1 else 0) + count_trimmed ls.
Proof.
  unfold count_trimmed. cbn [map filter].
  now destruct (is_record (strip l)).
Qed.

Lemma LF_is_space (c : ascii) : Ascii.eqb c "010" = true -> is_space c = true.
Proof. intros H. apply Ascii.eqb_eq in H. now subst. Qed.

(** A whitespace character put in front of a text leaves the number of
    trimmed records as it is. *)
Lemma count_trimmed_space_cons (c : ascii) (s : string) :
  is_space c = true ->
  count_trimmed (split_lines (String c s)) = count_trimmed (split_lines s).
Proof.
  intros Hc. cbn [split_lines].
  destruct (split_lines_cons s) as (l & ls & E). rewrite E.
  destruct (Ascii.eqb c "010").
  - now rewrite count_trimmed_cons.
  - now rewrite !count_trimmed_cons, strip_space_cons.
Qed.

Lemma count_trimmed_lstrip (s : string) :
  count_trimmed (split_lines (lstrip s)) = count_trimmed (split_lines s).
Proof.
  induction s as [|c s IH]; [reflexivity|].
  cbn [lstrip]. destruct (is_space c) eqn:Ec; [|reflexivity].
  now rewrite count_trimmed_space_cons.
Qed.

(** Trimming the end of a text changes its first line by trailing blanks
    at most, and leaves the trimmed records of the other lines alone. *)
Lemma split_rstrip (s : string) :
  rstrip (hd "" (split_lines (rstrip s))) = rstrip (hd "" (split_lines s))
  /\ count_trimmed (tl (split_lines (rstrip s)))
     = count_trimmed (tl (split_lines s)).
Proof.
  induction s as [|c s [IHh IHt]]; [split; reflexivity|].
  destruct (split_lines_cons s) as (l & ls & E).
  destruct (split_lines_cons (rstrip s)) as (lr & lsr & Er).
  rewrite E, Er in *. cbn [hd tl] in IHh, IHt.
  cbn [rstrip].
  destruct (is_space c && is_empty (rstrip s)) eqn:Eb.
  - apply andb_true_iff in Eb as [Ec Es]. apply is_empty_true in Es.
    rewrite Es in Er. injection Er as <- <-.
    cbn [split_lines]. rewrite E.
    destruct (Ascii.eqb c "010"); cbn [hd tl].
    + split; [reflexivity|].
      rewrite count_trimmed_cons, <- IHt, strip_blank by now symmetry.
      reflexivity.
    + split; [|exact IHt]. cbn [rstrip]. now rewrite <- IHh, Ec.
  - cbn [split_lines]. rewrite E, Er.
    destruct (Ascii.eqb c "010"); cbn [hd tl].
    + split; [reflexivity|].
      rewrite !count_trimmed_cons, IHt.
      now rewrite (strip_by_rstrip lr l IHh).
    + split; [|exact IHt]. cbn [rstrip]. now rewrite IHh.
Qed.

Lemma count_trimmed_rstrip (s : string) :
  count_trimmed (split_lines (rstrip s)) = count_trimmed (split_lines s).
Proof.
  destruct (split_rstrip s) as [Hh Ht].
  destruct (split_lines_cons s) as (l & ls & E).
  destruct (split_lines_cons (rstrip s)) as (lr & lsr & Er).
  rewrite E, Er in *. cbn [hd tl] in Hh, Ht.
  now rewrite !count_trimmed_cons, Ht, (strip_by_rstrip lr l Hh).
Qed.

(** The per-line summary does not see whether the text was trimmed. *)
Lemma summarize_spec_strip (text : string) :
  summarize_spec text = count_trimmed (split_lines (strip text)).
Proof.
  unfold summarize_spec, strip.
  rewrite count_trimmed_rstrip, count_trimmed_lstrip. reflexivity.
Qed.

Lemma prefix_app (p s : string) :
  String.prefix p s = true -> exists rest, s = p ++ rest.
Proof.
  revert s. induction p as [|c p IH]; intros [|d s]; simpl;
    try discriminate; try (intros _; eexists; reflexivity).
  destruct (Ascii.ascii_dec c d) as [->|]; [|discriminate].
  intros H. destruct (IH s H) as [rest ->]. now exists rest.
Qed.

Lemma rstrip_nonspace (c : ascii) (s : string) :
  is_space c = false -> rstrip (String c s) = String c (rstrip s).
Proof. intros H. cbn [rstrip]. now rewrite H. Qed.

Lemma lstrip_nonspace (c : ascii) (s : string) :
  is_space c = false -> lstrip (String c s) = String c s.
Proof. intros H. cbn [lstrip]. now rewrite H. Qed.

Lemma strip_keeps_marker (l : string) :
  startswith l MARKER = true -> startswith (strip l) MARKER = true.
Proof.
  unfold startswith. intros H. apply prefix_app in H as [rest ->].
  unfold strip, MARKER. cbn [append].
  rewrite lstrip_nonspace by reflexivity.
  rewrite !rstrip_nonspace by reflexivity.
  cbn. now destruct (rstrip rest).
Qed.

Lemma strip_nonempty (l : string) : is_empty l = true -> is_empty (strip l) = true.
Proof. intros H. apply is_empty_true in H. now subst. Qed.

(** A line that is a record once trimmed is a record as it stands. *)
Lemma is_record_strip (l : string) :
  is_record (strip l) = true -> is_record l = true.
Proof.
  unfold is_record. rewrite !andb_true_iff, !negb_true_iff.
  intros [Hne Hm]. split.
  - destruct (is_empty l) eqn:E; [|reflexivity].
    apply strip_nonempty in E. congruence.
  - destruct (startswith l MARKER) eqn:E; [|reflexivity].
    apply strip_keeps_marker in E. congruence.
Qed.

Lemma count_trimmed_le (lines : list string) :
  count_trimmed lines <= List.length (filter is_record lines).
Proof.
  induction lines as [|l lines IH]; [apply Nat.le_refl|].
  rewrite count_trimmed_cons. cbn [filter].
  destruct (is_record (strip l)) eqn:E.
  - rewrite (is_record_strip l E). simpl. lia.
  - destruct (is_record l); simpl; lia.
Qed.

Lemma count_trimmed_already (lines : list string) :
  Forall (fun l => strip l = l) lines ->
  count_trimmed lines = List.length (filter is_record lines).
Proof.
  intros H. unfold count_trimmed. f_equal. f_equal.
  induction H as [|l lines Hl _ IH]; [reflexivity|].
  cbn [map]. now rewrite Hl, IH.
Qed.

Lemma no_records (lines : list string) :
  Forall (fun l => is_empty l = true \/ startswith l MARKER = true) lines ->
  filter is_record lines = [].
Proof.
  intros H. apply filter_none. intros l Hl.
  rewrite Forall_forall in H. unfold is_record.
  destruct (H l Hl) as [-> | ->]; [reflexivity | apply andb_false_r].
Qed.

(** ** The claims about [build_url] and the summary *)

(** C2: for a key of a dictionary whose value is a list of N elements, the
    pairs of the query string carrying that key are the N elements printed,
    in the order of the list, empty strings included; the URL is the base
    path followed by [?] and all pairs joined with [&], so each element's
    [key=value] stands in it; and the BRCA1 example gives the stated URL. *)
Theorem build_url_repeated_key :
  forall (compilation endpoint : pyval) (params : dict) (key : string)
         (l : list pyval),
    dict_wf params ->
    dict_get key params = Some (PList l) ->
    pairs_of key params = map (fun v => (key, py_str v)) l
    /\ List.length (pairs_of key params) = List.length l
    /\ build_url compilation endpoint params
       = BASE_URL ++ "/" ++ py_str compilation ++ "/" ++ py_str endpoint
         ++ match query_pairs params with
            | [] => ""
            | pairs => "?" ++ String.concat "&" (map render_pair pairs)
            end
    /\ (forall v, In v l ->
          Contains (build_url compilation endpoint params)
                   (key ++ "=" ++ py_str v))
    /\ build_url (PStr "gtexv2") (PStr "snaptron")
         [("regions", PStr "BRCA1");
          ("rfilter", PList [PStr "samples_count>:5";
                             PStr "coverage_avg>:10.0"])]
       = "http://snaptron.cs.jhu.edu/gtexv2/snaptron?regions=BRCA1&rfilter=samples_count>:5&rfilter=coverage_avg>:10.0".
Proof.
  intros compilation endpoint params key l Hwf Hget.
  assert (Hp : pairs_of key params = map (fun v => (key, py_str v)) l).
  { now rewrite (pairs_of_present key (PList l) params Hwf Hget). }
  split; [exact Hp|]. split; [now rewrite Hp, length_map|].
  split; [apply build_url_pairs|]. split; [|reflexivity].
  intros v Hv.
  apply (build_url_contains compilation endpoint params (key, py_str v)).
  assert (Hin : In (key, py_str v) (pairs_of key params)).
  { rewrite Hp. now apply (in_map (fun v => (key, py_str v))). }
  now apply filter_In in Hin.
Qed.

(** C4: a key whose value is [None] or the empty string gives no pair of
    the query string, and the URL is the one built without that key; a key
    that the arguments lack, or carry with [None] or the empty string, gives
    no pair in the URL built from the extracted parameters. *)
Theorem build_url_skips_empty :
  (forall (compilation endpoint : pyval) (params : dict) (key : string)
          (v : pyval),
     dict_wf params ->
     dict_get key params = Some v ->
     v = PNone \/ v = PStr "" ->
     pairs_of key params = []
     /\ build_url compilation endpoint params
        = build_url compilation endpoint (dict_remove key params))
  /\ (forall (compilation endpoint : pyval) (args : dict) (key : string),
        dict_get key args = None \/ dict_get key args = Some PNone
        \/ dict_get key args = Some (PStr "") ->
        pairs_of key (extract_params args) = []
        /\ build_url compilation endpoint (extract_params args)
           = build_url compilation endpoint
               (dict_remove key (extract_params args))).
Proof.
  assert (Hparams : forall compilation endpoint params key v,
            dict_wf params -> dict_get key params = Some v ->
            v = PNone \/ v = PStr "" ->
            pairs_of key params = []
            /\ build_url compilation endpoint params
               = build_url compilation endpoint (dict_remove key params)).
  { intros compilation endpoint params key v Hwf Hget Hv. split.
    - rewrite (pairs_of_present key v params Hwf Hget).
      now destruct Hv as [-> | ->].
    - unfold build_url.
      rewrite (query_parts_remove key v params Hwf Hget); [reflexivity|].
      now destruct Hv as [-> | ->]. }
  split; [exact Hparams|].
  intros compilation endpoint args key Hargs.
  destruct (dict_get key (extract_params args)) as [v|] eqn:E.
  - apply (Hparams _ _ _ key v (extract_params_wf args) E).
    apply extract_params_get in E.
    destruct Hargs as [H|[H|H]]; rewrite H in E; [discriminate | |];
      injection E as <-; auto.
  - split; [now apply pairs_of_absent | now rewrite dict_remove_absent].
Qed.

(** C3, as the code has it: the count is the number of lines of the
    text, trimmed once as a whole and then split on newline, that are
    non-empty and do not start with the marker; lines are not trimmed one
    by one, so the count is never below the per-line-trimmed count of the
    specification and equals it when no line of the trimmed text has
    surrounding whitespace; it is 0 when every line is empty or a marker
    line, 0 for the empty text, and 3 for one marker line, three data lines
    and a trailing blank line. *)
Theorem count_records_of_trimmed_text :
  forall text : string,
    count_records text
    = List.length (filter is_record (split_lines (strip text)))
    /\ summarize_spec text <= count_records text
    /\ (Forall (fun l => strip l = l) (split_lines (strip text)) ->
        count_records text = summarize_spec text)
    /\ (Forall (fun l => is_empty l = true \/ startswith l MARKER = true)
          (split_lines (strip text)) ->
        count_records text = 0)
    /\ count_records "" = 0
    /\ count_records ("DataSource:Type" ++ TAB ++ "snaptron_id" ++ LF
                      ++ "DataSource:Type" ++ TAB ++ "rail_id" ++ LF) = 0
    /\ count_records stub_body = 3.
Proof.
  intros text. split; [reflexivity|].
  split; [rewrite summarize_spec_strip; apply count_trimmed_le|].
  split; [|split; [|repeat split]].
  - intros H. rewrite summarize_spec_strip. symmetry.
    now apply count_trimmed_already.
  - intros H. unfold count_records. now rewrite no_records.
Qed.

(** C3 as stated fails: with a blank line between two records the code
    counts three lines, the per-line-trimmed count is two. *)
Lemma count_records_counts_blank_line :
  count_records ("a" ++ LF ++ " " ++ LF ++ "b") = 3
  /\ summarize_spec ("a" ++ LF ++ " " ++ LF ++ "b") = 2
  /\ count_records ("a" ++ LF ++ " " ++ LF ++ "b")
     <> summarize_spec ("a" ++ LF ++ " " ++ LF ++ "b").
Proof. repeat split. discriminate. Qed.

(** ** Worked instances *)

(** C1 at work: the genes tool called without [compilation]. *)
Lemma call_tool_always_answers_witness :
  In "snaptron_query_genes" tool_names
  /\ "snaptron_query_genes" <> "snaptron_list_compilations"
  /\ dict_get "compilation" [("regions", PStr "BRCA1")] = None
  /\ call_tool stub_500 stub_json "snaptron_query_genes"
       [("regions", PStr "BRCA1")] []
     = (Returned [ {| type := "text"; text := "Error: 'compilation'" |} ], []).
Proof.
  assert (H1 : In "snaptron_query_genes" tool_names) by (simpl; tauto).
  assert (H2 : "snaptron_query_genes" <> "snaptron_list_compilations")
    by discriminate.
  assert (H3 : dict_get "compilation" [("regions", PStr "BRCA1")] = None)
    by reflexivity.
  split; [exact H1|]. split; [exact H2|]. split; [exact H3|].
  exact (proj2 (proj2 (call_tool_always_answers stub_500 stub_json
                         "snaptron_query_genes" [("regions", PStr "BRCA1")] []))
           H1 H2 H3).
Defined.

(** C2 at work: an empty filter expression is still emitted. *)
Lemma build_url_repeated_key_witness :
  let params := [("regions", PStr "BRCA1");
                 ("rfilter", PList [PStr ""; PStr "strand:+"])] in
  dict_wf params
  /\ dict_get "rfilter" params = Some (PList [PStr ""; PStr "strand:+"])
  /\ pairs_of "rfilter" params = [("rfilter", ""); ("rfilter", "strand:+")]
  /\ build_url (PStr "gtexv2") (PStr "snaptron") params
     = "http://snaptron.cs.jhu.edu/gtexv2/snaptron?regions=BRCA1&rfilter=&rfilter=strand:+".
Proof.
  intros params.
  assert (Hwf : dict_wf params).
  { unfold dict_wf. simpl.
    repeat (constructor; [simpl; intuition discriminate|]). constructor. }
  assert (Hget : dict_get "rfilter" params
                 = Some (PList [PStr ""; PStr "strand:+"])) by reflexivity.
  split; [exact Hwf|]. split; [exact Hget|]. split; [|reflexivity].
  exact (proj1 (build_url_repeated_key (PStr "gtexv2") (PStr "snaptron")
                  params "rfilter" [PStr ""; PStr "strand:+"] Hwf Hget)).
Defined.

(** C3 at work: on the sample body both counts agree. *)
Lemma count_records_of_trimmed_text_witness :
  Forall (fun l => strip l = l) (split_lines (strip stub_body))
  /\ count_records stub_body = summarize_spec stub_body.
Proof.
  assert (H : Forall (fun l => strip l = l) (split_lines (strip stub_body)))
    by (repeat constructor).
  split; [exact H|].
  exact (proj1 (proj2 (proj2 (count_records_of_trimmed_text stub_body))) H).
Defined.

(** C4 at work: an empty [regions] and an absent [sids]. *)
Lemma build_url_skips_empty_witness :
  let params := [("regions", PStr ""); ("ids", PStr "5,7,8")] in
  let args := [("compilation", PStr "gtexv2"); ("regions", PStr "");
               ("ids", PStr "5,7,8")] in
  dict_wf params
  /\ dict_get "regions" params = Some (PStr "")
  /\ pairs_of "regions" params = []
  /\ build_url (PStr "gtexv2") (PStr "snaptron") params
     = "http://snaptron.cs.jhu.edu/gtexv2/snaptron?ids=5,7,8"
  /\ dict_get "sids" args = None
  /\ pairs_of "sids" (extract_params args) = []
  /\ pairs_of "regions" (extract_params args) = [].
Proof.
  intros params args.
  assert (Hwf : dict_wf params).
  { unfold dict_wf. simpl.
    repeat (constructor; [simpl; intuition discriminate|]). constructor. }
  assert (Hget : dict_get "regions" params = Some (PStr "")) by reflexivity.
  split; [exact Hwf|]. split; [exact Hget|].
  split.
  { exact (proj1 (proj1 build_url_skips_empty (PStr "gtexv2") (PStr "snaptron")
                    params "regions" (PStr "") Hwf Hget
                    (or_intror eq_refl))). }
  split; [reflexivity|]. split; [reflexivity|]. split.
  - exact (proj1 (proj2 build_url_skips_empty PNone PNone args "sids"
                    (or_introl eq_refl))).
  - exact (proj1 (proj2 build_url_skips_empty PNone PNone args "regions"
                    (or_intror (or_intror eq_refl)))).
Defined.

(** C5 at work: the caller asks for [fields=chromosome,start]. *)
Lemma count_tool_forces_fields_witness :
  let args := [("compilation", PStr "gtexv2"); ("regions", PStr "BRCA1");
               ("fields", PStr "chromosome,start")] in
  dict_get "compilation" args = Some (PStr "gtexv2")
  /\ snd (call_tool stub_200 stub_json "snaptron_get_result_count" args [])
     = ["http://snaptron.cs.jhu.edu/gtexv2/snaptron?regions=BRCA1&fields=rc"].
Proof.
  intros args. split; [reflexivity|].
  exact (proj1 (count_tool_forces_fields stub_200 stub_json args
                  (PStr "gtexv2") [] eq_refl)).
Defined.

(** C6 at work: a service answering 500 with body [server error]. *)
Lemma http_status_failure_is_soft_error_witness :
  let args := [("compilation", PStr "gtexv2"); ("regions", PStr "BRCA1")] in
  let url := "http://snaptron.cs.jhu.edu/gtexv2/snaptron?regions=BRCA1" in
  In url (snd (call_tool stub_500 stub_json "snaptron_query_junctions"
                 args []))
  /\ stub_500 url = Response 500 "server error"
  /\ (500 < 200 \/ 299 < 500)%Z
  /\ call_tool stub_500 stub_json "snaptron_query_junctions" args []
     = (Returned [ {| type := "text";
                      text := "HTTP error 500: server error" |} ], [url]).
Proof.
  intros args url.
  assert (H1 : In url (snd (call_tool stub_500 stub_json
                              "snaptron_query_junctions" args [])))
    by (left; reflexivity).
  assert (H2 : (500 < 200 \/ 299 < 500)%Z) by (right; reflexivity).
  split; [exact H1|]. split; [reflexivity|]. split; [exact H2|].
  exact (proj1 (http_status_failure_is_soft_error stub_500 stub_json
                  "snaptron_query_junctions" args url 500 "server error"
                  H1 eq_refl H2)).
Defined.

(** C7 at work: a tool name the catalogue does not have. *)
Lemma unknown_tool_is_soft_error_witness :
  ~ In "snaptron_query_exons"
       ["snaptron_query_junctions"; "snaptron_query_genes";
        "snaptron_query_samples"; "snaptron_list_compilations";
        "snaptron_get_result_count"; "snaptron_build_url"]
  /\ call_tool stub_200 stub_json "snaptron_query_exons"
       [("compilation", PStr "gtexv2")] []
     = (Returned [ {| type := "text";
                      text := "Unknown tool: snaptron_query_exons" |} ], []).
Proof.
  assert (H : ~ In "snaptron_query_exons"
                 ["snaptron_query_junctions"; "snaptron_query_genes";
                  "snaptron_query_samples"; "snaptron_list_compilations";
                  "snaptron_get_result_count"; "snaptron_build_url"])
    by (simpl; intuition discriminate).
  split; [exact H|].
  exact (proj1 (proj2 (unknown_tool_is_soft_error stub_200 stub_json
                         "snaptron_query_exons"
                         [("compilation", PStr "gtexv2")] [] H))).
Defined.

(** C8 at work: the build-only tool in front of a failing service. *)
Lemma build_tool_never_fetches_witness :
  let args := [("compilation", PStr "tcgav2"); ("endpoint", PStr "genes");
               ("regions", PStr "chr21:1-500")] in
  dict_get "compilation" args = Some (PStr "tcgav2")
  /\ call_tool stub_500 stub_json "snaptron_build_url" args []
     = (Returned
          [ {| type := "text";
               text := built_text
                  "http://snaptron.cs.jhu.edu/tcgav2/genes?regions=chr21:1-500"
            |} ], []).
Proof.
  intros args. split; [reflexivity|].
  pose proof (build_tool_never_fetches stub_500 stub_json args [])
    as (Hlog & _ & Htext).
  rewrite (surjective_pairing (call_tool _ _ _ _ _)), Hlog.
  now rewrite (Htext (PStr "tcgav2") eq_refl).
Defined.

(** C9 at work: the same three arguments in reverse order. *)
Lemma url_invariant_under_argument_order_witness :
  let a1 := [("regions", PStr "BRCA1"); ("compilation", PStr "gtexv2");
             ("rfilter", PList [PStr "strand:+"])] in
  let a2 := [("rfilter", PList [PStr "strand:+"]);
             ("compilation", PStr "gtexv2"); ("regions", PStr "BRCA1")] in
  dict_wf a1 /\ Permutation a1 a2
  /\ call_tool stub_200 stub_json "snaptron_query_junctions" a1 []
     = call_tool stub_200 stub_json "snaptron_query_junctions" a2 [].
Proof.
  intros a1 a2.
  assert (Hwf : dict_wf a1).
  { unfold dict_wf. simpl.
    repeat (constructor; [simpl; intuition discriminate|]). constructor. }
  assert (Hp : Permutation a1 a2).
  { unfold a1, a2.
    eapply perm_trans; [apply perm_swap|].
    eapply perm_trans; [apply perm_skip, perm_swap|]. apply perm_swap. }
  split; [exact Hwf|]. split; [exact Hp|].
  exact (proj2 (proj2 (proj2 (proj2
           (url_invariant_under_argument_order stub_200 stub_json))
           a1 a2 Hwf Hp)) "snaptron_query_junctions" []).
Defined.

(** C10 at work: the build-only tool called without [endpoint]. *)
Lemma build_tool_defaults_endpoint_witness :
  let args := [("compilation", PStr "srav3h"); ("ids", PStr "5,7,8")] in
  dict_get "compilation" args = Some (PStr "srav3h")
  /\ dict_get "endpoint" args = None
  /\ call_tool stub_500 stub_json "snaptron_build_url" args []
     = (Returned
          [ {| type := "text";
               text := built_text
                         "http://snaptron.cs.jhu.edu/srav3h/snaptron?ids=5,7,8"
            |} ], []).
Proof.
  intros args. split; [reflexivity|]. split; [reflexivity|].
  exact (proj1 (proj2 (build_tool_defaults_endpoint stub_500 stub_json args
                         (PStr "srav3h") [] eq_refl eq_refl))).
Defined.

(* ================================================================== *)
(** * Further properties of the handlers *)

(** ** [build_url] *)

Lemma item_parts_skipped (key : string) (v : pyval) :
  item_parts key v = [] <-> skipped v = true.
Proof.
  destruct v as [| | |s|l|]; simpl; try (split; discriminate);
    try (split; reflexivity).
  - destruct s; split; (reflexivity || discriminate).
  - destruct l; split; (reflexivity || discriminate).
Qed.

Lemma query_parts_app (p1 p2 : dict) :
  query_parts (p1 ++ p2)%list = (query_parts p1 ++ query_parts p2)%list.
Proof. rewrite !query_parts_flat_map. apply flat_map_app. Qed.

Lemma query_parts_nil (params : dict) :
  query_parts params = [] <->
  Forall (fun kv => skipped (snd kv) = true) params.
Proof.
  rewrite query_parts_flat_map.
  induction params as [|[k v] params IH]; simpl.
  - split; [constructor | reflexivity].
  - split.
    + intros H. apply app_eq_nil in H as [Hv Hr].
      constructor; [now apply (item_parts_skipped k) | now apply IH].
    + intros H. inversion H as [|? ? Hv Hr]; subst. simpl in Hv.
      apply (item_parts_skipped k) in Hv. rewrite Hv. now apply IH.
Qed.

Lemma concat_app (sep : string) (l1 l2 : list string) :
  l1 <> [] -> l2 <> [] ->
  String.concat sep (l1 ++ l2)%list
  = String.concat sep l1 ++ sep ++ String.concat sep l2.
Proof.
  intros H1 H2. induction l1 as [|a l1 IH]; [congruence|].
  destruct l1 as [|b l1].
  - destruct l2 as [|c l2]; [congruence | reflexivity].
  - change (String.concat sep ((a :: b :: l1) ++ l2)%list)
      with (a ++ sep ++ String.concat sep ((b :: l1) ++ l2)%list).
    rewrite IH by discriminate.
    change (String.concat sep (a :: b :: l1))
      with (a ++ sep ++ String.concat sep (b :: l1)).
    now rewrite !append_assoc.
Qed.

(** X1: when every value is [None], the empty string or the empty list
    (so for the empty dictionary too) the URL is the bare path, with no
    question mark; as soon as one value is anything else the URL is the
    path, a question mark and the parts joined with [&]. *)
Theorem build_url_bare_path :
  forall (compilation endpoint : pyval) (params : dict),
    let base := BASE_URL ++ "/" ++ py_str compilation ++ "/"
                ++ py_str endpoint in
    (Forall (fun kv => skipped (snd kv) = true) params ->
     build_url compilation endpoint params = base)
    /\ (Exists (fun kv => skipped (snd kv) = false) params ->
        query_parts params <> []
        /\ build_url compilation endpoint params
           = base ++ "?" ++ String.concat "&" (query_parts params)).
Proof.
  intros compilation endpoint params base. split.
  - intros H. apply query_parts_nil in H. unfold build_url. now rewrite H.
  - intros H.
    assert (Hne : query_parts params <> []).
    { intros Hnil. apply query_parts_nil in Hnil.
      apply Exists_exists in H as (kv & Hin & Hkv).
      rewrite Forall_forall in Hnil. specialize (Hnil kv Hin). congruence. }
    split; [exact Hne|]. unfold build_url.
    now destruct (query_parts params).
Qed.

(** X2: the parts stand in the URL in the order of the dictionary's
    items: building from two dictionaries put end to end gives the URL of
    the first followed by [&] and the parts of the second. *)
Theorem build_url_app :
  forall (compilation endpoint : pyval) (p1 p2 : dict),
    query_parts p1 <> [] -> query_parts p2 <> [] ->
    build_url compilation endpoint (p1 ++ p2)%list
    = build_url compilation endpoint p1 ++ "&"
      ++ String.concat "&" (query_parts p2).
Proof.
  intros compilation endpoint p1 p2 H1 H2. unfold build_url.
  rewrite query_parts_app.
  destruct (query_parts p1) as [|a l1] eqn:E1; [congruence|].
  destruct (query_parts p2) as [|b l2] eqn:E2; [congruence|].
  change ((a :: l1) ++ b :: l2)%list with (a :: (l1 ++ b :: l2))%list.
  change (a :: (l1 ++ b :: l2))%list with ((a :: l1) ++ b :: l2)%list.
  rewrite concat_app by discriminate.
  now rewrite !append_assoc.
Qed.

(** X3: values are copied into the URL as they are, with no escaping:
    a string value that holds [&key=value] gives the very URL of two
    separate parameters. *)
Theorem build_url_no_escaping :
  forall (compilation endpoint : pyval) (k1 v1 k2 v2 : string),
    v1 <> "" -> v2 <> "" ->
    build_url compilation endpoint
      [(k1, PStr (v1 ++ "&" ++ k2 ++ "=" ++ v2))]
    = build_url compilation endpoint [(k1, PStr v1); (k2, PStr v2)].
Proof.
  intros compilation endpoint k1 v1 k2 v2 H1 H2.
  destruct v1 as [|a v1]; [congruence|].
  destruct v2 as [|b v2]; [congruence|].
  unfold build_url, query_parts. cbn [fold_left fst snd item_parts app].
  cbn [append py_str String.concat].
  now rewrite !append_assoc.
Qed.

(** ** [extract_params] *)

Lemma pick_scalar_In (args : dict) (key k : string) (v : pyval) :
  In (k, v) (pick_scalar args key) <->
  k = key /\ dict_get k args = Some v /\ v <> PNone.
Proof.
  unfold pick_scalar. split.
  - destruct (dict_get key args) as [w|] eqn:E; [|contradiction].
    destruct w; simpl; try contradiction;
      intros [[= <- <-]|[]]; (split; [reflexivity|split; [exact E|discriminate]]).
  - intros (-> & -> & Hv). destruct v; simpl; try (now left). congruence.
Qed.

Lemma pick_repeated_In (args : dict) (key k : string) (v : pyval) :
  In (k, v) (pick_repeated args key) <->
  k = key /\ dict_get k args = Some v /\ truthy v = true.
Proof.
  unfold pick_repeated. split.
  - destruct (dict_get key args) as [w|] eqn:E; [|contradiction].
    destruct (truthy w) eqn:Et; [|contradiction].
    intros [[= <- <-]|[]]. auto.
  - intros (-> & -> & ->). now left.
Qed.

(** X4: the items of the extracted parameters are exactly the caller's
    items whose key is one of the eight scalar keys and whose value is not
    [None], and the caller's [rfilter] and [sfilter] items whose value is
    true in the sense of [if]; every other argument is dropped. *)
Theorem extract_params_items :
  forall (args : dict) (k : string) (v : pyval),
    In (k, v) (extract_params args) <->
    dict_get k args = Some v
    /\ ((In k ["regions"; "ids"; "sids"; "contains"; "exact"; "either";
               "header"; "fields"] /\ v <> PNone)
        \/ ((k = "rfilter" \/ k = "sfilter") /\ truthy v = true)).
Proof.
  intros args k v.
  rewrite extract_params_closed, !in_app_iff, in_flat_map.
  rewrite !pick_repeated_In. split.
  - intros [(key & Hkey & H)|[H|H]].
    + apply pick_scalar_In in H as (-> & Hg & Hv). auto.
    + destruct H as (-> & Hg & Ht). auto.
    + destruct H as (-> & Hg & Ht). auto.
  - intros (Hg & [[Hk Hv]|[[-> | ->] Ht]]); auto.
    left. exists k. split; [exact Hk|]. now apply pick_scalar_In.
Qed.

Lemma flat_map_pointwise {A B} (f g : A -> list B) (l : list A) :
  (forall x, In x l -> f x = g x) -> flat_map f l = flat_map g l.
Proof.
  induction l as [|a l IH]; intros H; simpl; [reflexivity|].
  rewrite (H a (or_introl eq_refl)), IH; [reflexivity|].
  intros x Hx. apply H. now right.
Qed.

Lemma extract_params_lookup_items (args : dict) (k : string) :
  dict_get k (extract_params args) =
  match dict_get k args with
  | Some v =>
      if existsb (String.eqb k) scalar_keys
      then (if is_None v then None else Some v)
      else if String.eqb k "rfilter" || String.eqb k "sfilter"
           then (if truthy v then Some v else None)
           else None
  | None => None
  end.
Proof.
  destruct (dict_get k (extract_params args)) as [v|] eqn:E.
  - pose proof (dict_get_Some_In _ _ _ E) as Hin.
    apply extract_params_items in Hin as (Hg & H). rewrite Hg.
    destruct H as [[Hk Hv]|[Hk Ht]].
    + replace (existsb (String.eqb k) scalar_keys) with true.
      * destruct v; try reflexivity. congruence.
      * symmetry. apply existsb_exists. exists k. split; [exact Hk|].
        apply String.eqb_refl.
    + rewrite Ht. now destruct Hk as [-> | ->].
  - destruct (dict_get k args) as [v|] eqn:Hg; [|reflexivity].
    assert (Hn : ~ In (k, v) (extract_params args)).
    { intros Hin.
      apply (In_dict_get _ _ _ (extract_params_wf args)) in Hin. congruence. }
    rewrite extract_params_items in Hn.
    destruct (existsb (String.eqb k) scalar_keys) eqn:Ek.
    + destruct (is_None v) eqn:Ev; [reflexivity|]. exfalso. apply Hn.
      split; [exact Hg|]. left. split.
      * apply existsb_exists in Ek as (x & Hx & Hxk).
        apply String.eqb_eq in Hxk. now subst.
      * intros ->. discriminate.
    + destruct (String.eqb k "rfilter" || String.eqb k "sfilter") eqn:Er;
        [|reflexivity].
      destruct (truthy v) eqn:Et; [|reflexivity]. exfalso. apply Hn.
      split; [exact Hg|]. right. split; [|reflexivity].
      apply orb_true_iff in Er as [Er|Er]; apply String.eqb_eq in Er; auto.
Qed.

(** X5: extracting twice is extracting once. *)
Theorem extract_params_idempotent :
  forall args : dict,
    extract_params (extract_params args) = extract_params args.
Proof.
  intros args. rewrite (extract_params_closed (extract_params args)).
  rewrite (extract_params_closed args) at 4.
  f_equal; [|f_equal].
  - apply flat_map_pointwise. intros k Hk. unfold pick_scalar.
    rewrite extract_params_lookup_items.
    replace (existsb (String.eqb k) scalar_keys) with true.
    + destruct (dict_get k args) as [v|]; [|reflexivity].
      destruct (is_None v) eqn:Ev; [reflexivity | now rewrite Ev].
    + symmetry. apply existsb_exists. exists k. split; [exact Hk|].
      apply String.eqb_refl.
  - unfold pick_repeated. rewrite extract_params_lookup_items. cbn.
    destruct (dict_get "rfilter" args) as [v|]; [|reflexivity].
    destruct (truthy v) eqn:Ev; [now rewrite Ev | reflexivity].
  - unfold pick_repeated. rewrite extract_params_lookup_items. cbn.
    destruct (dict_get "sfilter" args) as [v|]; [|reflexivity].
    destruct (truthy v) eqn:Ev; [now rewrite Ev | reflexivity].
Qed.

(** X6: what each key gives in the URL built from the extracted
    parameters.  A scalar key gives whatever [build_url] makes of the
    caller's value, so [0] and [False] are sent ([contains=0]); [rfilter]
    and [sfilter] give it only for a value that is true in the sense of
    [if], so [0] and [False] are not sent; any other key gives nothing. *)
Theorem query_pairs_of_arguments :
  forall (args : dict) (key : string),
    (In key ["regions"; "ids"; "sids"; "contains"; "exact"; "either";
             "header"; "fields"] ->
     pairs_of key (extract_params args)
     = match dict_get key args with
       | Some v => item_pairs key v
       | None => []
       end)
    /\ (key = "rfilter" \/ key = "sfilter" ->
        pairs_of key (extract_params args)
        = match dict_get key args with
          | Some v => if truthy v then item_pairs key v else []
          | None => []
          end)
    /\ (~ In key ["regions"; "ids"; "sids"; "contains"; "exact"; "either";
                  "header"; "fields"; "rfilter"; "sfilter"] ->
        pairs_of key (extract_params args) = []).
Proof.
  intros args key.
  assert (H : pairs_of key (extract_params args)
              = match dict_get key (extract_params args) with
                | Some v => item_pairs key v
                | None => []
                end).
  { destruct (dict_get key (extract_params args)) as [v|] eqn:E.
    - now apply pairs_of_present; [apply extract_params_wf|].
    - now apply pairs_of_absent. }
  rewrite H, extract_params_lookup_items. split; [|split].
  - intros Hk.
    replace (existsb (String.eqb key) scalar_keys) with true.
    + destruct (dict_get key args) as [v|]; [|reflexivity].
      now destruct v.
    + symmetry. apply existsb_exists. exists key. split; [exact Hk|].
      apply String.eqb_refl.
  - intros [-> | ->]; cbn;
      (match goal with
       | |- context [dict_get ?k args] => destruct (dict_get k args) as [v|]
       end; [now destruct (truthy v) | reflexivity]).
  - intros Hk. destruct (dict_get key args) as [v|]; [|reflexivity].
    destruct (existsb (String.eqb key) scalar_keys) eqn:Ek.
    + exfalso. apply Hk. apply existsb_exists in Ek as (x & Hx & Hxk).
      apply String.eqb_eq in Hxk. subst x.
      apply (in_or_app scalar_keys ["rfilter"; "sfilter"]). now left.
    + destruct (String.eqb key "rfilter" || String.eqb key "sfilter") eqn:Er;
        [|reflexivity].
      exfalso. apply Hk.
      apply (in_or_app scalar_keys ["rfilter"; "sfilter"]). right.
      apply orb_true_iff in Er as [Er|Er]; apply String.eqb_eq in Er;
        subst; simpl; auto.
Qed.

(** X7: where the count-only tool puts [fields=rc].  When the caller
    gave no [fields], or gave [None], the forced item goes after all the
    others, [rfilter] and [sfilter] included; otherwise it takes the place
    of the caller's item, and the keys and their order are unchanged. *)
Theorem count_tool_fields_position :
  forall args : dict,
    let params := dict_set "fields" (PStr "rc") (extract_params args) in
    (dict_get "fields" (extract_params args) = None ->
     params = (extract_params args ++ [("fields", PStr "rc")])%list
     /\ query_parts params
        = (query_parts (extract_params args) ++ ["fields=rc"])%list)
    /\ (dict_get "fields" (extract_params args) <> None ->
        dict_keys params = dict_keys (extract_params args))
    /\ (dict_get "fields" (extract_params args) = None <->
        dict_get "fields" args = None \/ dict_get "fields" args = Some PNone).
Proof.
  intros args params. split; [|split].
  - intros H. unfold params. rewrite (dict_set_fresh _ _ _ H).
    split; [reflexivity|]. now rewrite query_parts_app.
  - intros H. unfold params. rewrite dict_keys_set. unfold dict_in.
    now destruct (dict_get "fields" (extract_params args)).
  - rewrite extract_params_lookup_items. cbn.
    destruct (dict_get "fields" args) as [v|]; [|tauto].
    destruct v; simpl; split; try discriminate; auto;
      intros [H|H]; discriminate.
Qed.

(** ** [call_tool] *)

Lemma prefix_append (p s : string) : String.prefix p (p ++ s) = true.
Proof.
  induction p as [|c p IH]; simpl; [now destruct s|].
  destruct (Ascii.ascii_dec c c); [exact IH | congruence].
Qed.

Lemma build_url_origin (compilation endpoint : pyval) (params : dict) :
  String.prefix (BASE_URL ++ "/") (build_url compilation endpoint params)
  = true.
Proof.
  rewrite build_url_pairs, <- (append_assoc BASE_URL "/").
  apply prefix_append.
Qed.

Lemma forallb_handled :
  forallb schema_keys_handled list_tools = true.
Proof. reflexivity. Qed.

(** X8: every parameter a schema of the catalogue advertises is one the
    handlers read ([compilation], [endpoint] or a key [extract_params]
    forwards), and every required argument is an advertised parameter. *)
Theorem catalogue_keys_are_handled :
  forall tool : Tool,
    In tool list_tools ->
    (forall key schema,
       In (key, schema) (properties tool) ->
       key = "compilation" \/ key = "endpoint"
       \/ In key ["regions"; "ids"; "sids"; "contains"; "exact"; "either";
                  "header"; "fields"; "rfilter"; "sfilter"])
    /\ (forall r, In r (required tool) ->
                  exists schema, In (r, schema) (properties tool)).
Proof.
  intros tool Hin.
  pose proof forallb_handled as H. rewrite forallb_forall in H.
  specialize (H tool Hin). unfold schema_keys_handled in H.
  apply andb_true_iff in H as [Hp Hr].
  rewrite forallb_forall in Hp, Hr. split.
  - intros key schema Hk. specialize (Hp _ Hk). unfold handled_key in Hp.
    apply existsb_exists in Hp as (x & Hx & Hxk).
    apply String.eqb_eq in Hxk. simpl in Hxk. subst x.
    simpl in Hx.
    repeat (destruct Hx as [<-|Hx]; [simpl; tauto|]). contradiction.
  - intros r Hreq. specialize (Hr r Hreq).
    apply existsb_exists in Hr as (x & Hx & Hxr).
    apply String.eqb_eq in Hxr. subst x.
    apply in_map_iff in Hx as ([k schema] & Hk & Hin'). simpl in Hk. subst k.
    now exists schema.
Qed.

Section GatewayFurther.

Variable http_get : string -> get_result.
Variable json_reformat : string -> outcome string.

Lemma record_tools_dispatch (name endpoint : string) (args : dict) :
  In (name, endpoint) record_tools ->
  dispatch http_get json_reformat name args
  = query_records http_get endpoint args.
Proof.
  unfold record_tools. simpl.
  intros [[= <- <-]|[[= <- <-]|[[= <- <-]|[]]]]; reflexivity.
Qed.

Lemma dispatch_log (name : string) (args : dict) (log : list string) :
  snd (dispatch http_get json_reformat name args log) = log
  \/ exists url,
       snd (dispatch http_get json_reformat name args log)
       = (log ++ [url])%list
       /\ String.prefix (BASE_URL ++ "/") url = true.
Proof.
  assert (Hq : forall endpoint,
    snd (query_records http_get endpoint args log) = log
    \/ exists url,
         snd (query_records http_get endpoint args log) = (log ++ [url])%list
         /\ String.prefix (BASE_URL ++ "/") url = true).
  { intros endpoint. rewrite query_records_run.
    destruct (dict_get "compilation" args) as [c|]; cbv zeta; cbn [snd];
      [|now left].
    right. eexists. split; [reflexivity | apply build_url_origin]. }
  destruct (in_dec string_dec name tool_names) as [Hin|Hout].
  - apply (tool_names_cases http_get json_reformat) in Hin.
    destruct Hin as [-> | [-> | [-> | [-> | [-> | -> ]]]]].
    + rewrite dispatch_junctions. apply Hq.
    + rewrite dispatch_genes. apply Hq.
    + rewrite dispatch_samples. apply Hq.
    + rewrite registry_run. cbn [snd]. right. eexists.
      split; reflexivity.
    + rewrite count_run.
      destruct (dict_get "compilation" args) as [c|]; cbv zeta; cbn [snd];
        [|now left].
      right. eexists. split; [reflexivity | apply build_url_origin].
    + rewrite build_run.
      destruct (dict_get "compilation" args) as [c|]; cbv zeta; cbn [snd];
        now left.
  - rewrite dispatch_unknown by assumption. now left.
Qed.

(** X9: an invocation leaves the log of requests as it is or adds one
    URL at its end, never more, and that URL starts with
    [http://snaptron.cs.jhu.edu/]. *)
Theorem call_tool_one_request_to_origin :
  forall (name : string) (arguments : dict) (log : list string),
    snd (call_tool http_get json_reformat name arguments log) = log
    \/ exists url,
         snd (call_tool http_get json_reformat name arguments log)
         = (log ++ [url])%list
         /\ String.prefix "http://snaptron.cs.jhu.edu/" url = true.
Proof.
  intros name arguments log. rewrite call_tool_run. cbn [snd].
  apply dispatch_log.
Qed.

(** X10: the junctions, genes and samples tools query the endpoints
    [snaptron], [genes] and [samples]; on a 2xx answer the text is the
    URL, the number of records counted in the body, and the body as it
    came. *)
Theorem record_tools_success :
  forall (name endpoint : string) (arguments : dict) (compilation : pyval)
         (log : list string) (status_code : Z) (body : string),
    In (name, endpoint)
       [("snaptron_query_junctions", "snaptron");
        ("snaptron_query_genes", "genes");
        ("snaptron_query_samples", "samples")] ->
    dict_get "compilation" arguments = Some compilation ->
    let url := build_url compilation (PStr endpoint)
                 (extract_params arguments) in
    http_get url = Response status_code body ->
    (200 <= status_code <= 299)%Z ->
    call_tool http_get json_reformat name arguments log
    = (Returned
         [ {| type := "text";
              text := "Query URL: " ++ url ++ LF ++ LF ++ "Results ("
                      ++ str_int (Z.of_nat (count_records body))
                      ++ " records):" ++ LF ++ LF ++ body |} ],
       (log ++ [url])%list).
Proof.
  intros name endpoint arguments compilation log status_code body
         Hname Hc url Hresp Hok.
  rewrite call_tool_run, (record_tools_dispatch name endpoint) by exact Hname.
  rewrite query_records_run, Hc. cbv zeta. fold url. rewrite Hresp.
  unfold fetch_outcome, is_success.
  replace ((200 <=? status_code) && (status_code <=? 299))%Z with true
    by (symmetry; apply andb_true_iff; split; apply Z.leb_le; lia).
  reflexivity.
Qed.

(** X11: when the client raises a request error (connection, timeout)
    for the URL an invocation requests, the answer is the one text
    [Request error: <message>], after exactly that one request. *)
Theorem request_failure_is_soft_error :
  forall (name : string) (arguments : dict) (url message : string),
    In url (snd (call_tool http_get json_reformat name arguments [])) ->
    http_get url = GetRaises (RequestError message) ->
    call_tool http_get json_reformat name arguments []
    = (Returned [ {| type := "text";
                     text := "Request error: " ++ message |} ], [url]).
Proof.
  intros name arguments url message Hin Hresp.
  destruct (call_tool_requests http_get json_reformat name arguments url Hin)
    as [Hlog Hfail].
  rewrite (surjective_pairing (call_tool _ _ _ _ _)), Hlog.
  rewrite (Hfail (RequestError message)); [reflexivity|].
  now rewrite Hresp.
Qed.

(** X12: the registry tool does not read its arguments and requests the
    registry URL once; on a 2xx answer it returns the reformatted JSON, and
    when the body does not parse it returns the body as it came, under
    another heading, not an error text. *)
Theorem registry_tool_behaviour :
  forall (a1 a2 : dict) (log : list string),
    call_tool http_get json_reformat "snaptron_list_compilations" a1 log
    = call_tool http_get json_reformat "snaptron_list_compilations" a2 log
    /\ snd (call_tool http_get json_reformat "snaptron_list_compilations"
              a1 log)
       = (log ++ ["http://snaptron.cs.jhu.edu/snaptron/registry"])%list
    /\ (forall status_code body,
          http_get "http://snaptron.cs.jhu.edu/snaptron/registry"
          = Response status_code body ->
          (200 <= status_code <= 299)%Z ->
          (forall formatted,
             json_reformat body = Returned formatted ->
             fst (call_tool http_get json_reformat
                    "snaptron_list_compilations" a1 log)
             = Returned [ {| type := "text";
                             text := "Snaptron Compilation Registry:"
                                     ++ LF ++ LF ++ formatted |} ])
          /\ (forall message,
                json_reformat body = Raised (JSONDecodeError message) ->
                fst (call_tool http_get json_reformat
                       "snaptron_list_compilations" a1 log)
                = Returned [ {| type := "text";
                                text := "Registry response:" ++ LF
                                        ++ body |} ])).
Proof.
  intros a1 a2 log. split; [reflexivity|]. split.
  - now rewrite call_tool_run, registry_run.
  - intros status_code body Hresp Hok.
    change "http://snaptron.cs.jhu.edu/snaptron/registry" with registry_url
      in Hresp.
    assert (Hout : fetch_outcome (http_get registry_url) = Returned body).
    { rewrite Hresp. unfold fetch_outcome, is_success.
      replace ((200 <=? status_code) && (status_code <=? 299))%Z with true
        by (symmetry; apply andb_true_iff; split; apply Z.leb_le; lia).
      reflexivity. }
    split.
    + intros formatted Hj.
      now rewrite call_tool_run, registry_run, Hout, Hj.
    + intros message Hj.
      now rewrite call_tool_run, registry_run, Hout, Hj.
Qed.

(** X13: the build-only tool shows the URL the query tools request: for
    the same arguments, with [endpoint] naming the tool's endpoint (or
    absent, for the junctions tool), the URL in its text is the one the
    junctions, genes or samples tool adds to the log. *)
Theorem build_tool_predicts_request :
  forall (name endpoint : string) (arguments : dict) (compilation : pyval)
         (log : list string),
    In (name, endpoint)
       [("snaptron_query_junctions", "snaptron");
        ("snaptron_query_genes", "genes");
        ("snaptron_query_samples", "samples")] ->
    dict_get "compilation" arguments = Some compilation ->
    dict_get "endpoint" arguments = Some (PStr endpoint)
    \/ (dict_get "endpoint" arguments = None /\ endpoint = "snaptron") ->
    exists url,
      snd (call_tool http_get json_reformat name arguments log)
      = (log ++ [url])%list
      /\ call_tool http_get json_reformat "snaptron_build_url" arguments log
         = (Returned
              [ {| type := "text";
                   text := "Built Snaptron URL:" ++ LF ++ url ++ LF ++ LF
                           ++ "You can test this with:" ++ LF
                           ++ "  curl -L " ++ DQUOTE ++ url ++ DQUOTE |} ],
            log).
Proof.
  intros name endpoint arguments compilation log Hname Hc He.
  exists (build_url compilation (PStr endpoint) (extract_params arguments)).
  split.
  - rewrite call_tool_run, (record_tools_dispatch name endpoint)
      by exact Hname.
    now rewrite query_records_run, Hc.
  - rewrite call_tool_run, build_run, Hc.
    destruct He as [-> | [-> ->]]; reflexivity.
Qed.

Lemma answered_known_tool (name : string) (args : dict) (log : list string) :
  In name tool_names ->
  exists c rest,
    answered (fst (dispatch http_get json_reformat name args log))
    = Returned (text_content (String c rest))
    /\ c <> "U"%char.
Proof.
  assert (He : forall e, exists c rest,
             error_text e = String c rest /\ c <> "U"%char).
  { intros []; eexists; eexists; (split; [reflexivity | discriminate]). }
  assert (Hq : forall endpoint, exists c rest,
    answered (fst (query_records http_get endpoint args log))
    = Returned (text_content (String c rest)) /\ c <> "U"%char).
  { intros endpoint. rewrite query_records_run.
    destruct (dict_get "compilation" args) as [c0|]; cbv zeta; cbn [fst].
    - destruct (fetch_outcome _) as [result|e].
      + eexists; eexists; (split; [reflexivity | discriminate]).
      + destruct (He e) as (c & rest & E & Hc). exists c, rest.
        cbn [answered]. now rewrite E.
    - eexists; eexists; (split; [reflexivity | discriminate]). }
  intros Hin. apply (tool_names_cases http_get json_reformat) in Hin.
  destruct Hin as [-> | [-> | [-> | [-> | [-> | -> ]]]]].
  - rewrite dispatch_junctions. apply Hq.
  - rewrite dispatch_genes. apply Hq.
  - rewrite dispatch_samples. apply Hq.
  - rewrite registry_run. cbn [fst].
    destruct (fetch_outcome _) as [result|e].
    + destruct (json_reformat result) as [formatted|e].
      * eexists; eexists; (split; [reflexivity | discriminate]).
      * destruct e; eexists; eexists; (split; [reflexivity | discriminate]).
    + destruct (He e) as (c & rest & E & Hc). exists c, rest.
      cbn [answered]. now rewrite E.
  - rewrite count_run.
    destruct (dict_get "compilation" args) as [c0|]; cbv zeta; cbn [fst].
    + destruct (fetch_outcome _) as [result|e].
      * eexists; eexists; (split; [reflexivity | discriminate]).
      * destruct (He e) as (c & rest & E & Hc). exists c, rest.
        cbn [answered]. now rewrite E.
    + eexists; eexists; (split; [reflexivity | discriminate]).
  - rewrite build_run.
    destruct (dict_get "compilation" args) as [c0|]; cbv zeta; cbn [fst];
      eexists; eexists; (split; [reflexivity | discriminate]).
Qed.

(** X14: the catalogue and the dispatcher agree: [call_tool] answers
    [Unknown tool: <name>] exactly for the names the catalogue lacks; no
    advertised tool is ever answered that way, whatever the arguments and
    whatever the remote service does. *)
Theorem unknown_answer_iff_not_catalogued :
  forall (name : string) (arguments : dict) (log : list string),
    fst (call_tool http_get json_reformat name arguments log)
    = Returned [ {| type := "text"; text := "Unknown tool: " ++ name |} ]
    <-> ~ In name (tool_names).
Proof.
  intros name arguments log. rewrite call_tool_run. cbn [fst]. split.
  - intros H Hin.
    destruct (answered_known_tool name arguments log Hin)
      as (c & rest & E & Hc).
    rewrite E in H. injection H as H. congruence.
  - intros Hout. now rewrite dispatch_unknown by exact Hout.
Qed.

(** X15: a [null] is not a missing argument.  With [compilation]
    present as [None] no [KeyError] is raised and the query tools request
    a URL whose path starts with [/None/]; with [endpoint] present as
    [None] the build-only tool does not fall back to [snaptron] and builds
    a path ending in [/None]. *)
Theorem null_is_not_missing :
  forall (arguments : dict) (log : list string),
    (forall name endpoint,
       In (name, endpoint)
          [("snaptron_query_junctions", "snaptron");
           ("snaptron_query_genes", "genes");
           ("snaptron_query_samples", "samples")] ->
       dict_get "compilation" arguments = Some PNone ->
       exists query,
         snd (call_tool http_get json_reformat name arguments log)
         = (log ++ [("http://snaptron.cs.jhu.edu/None/" ++ endpoint
                     ++ query)%string])%list)
    /\ (forall compilation,
          dict_get "compilation" arguments = Some compilation ->
          dict_get "endpoint" arguments = Some PNone ->
          exists query,
            call_tool http_get json_reformat "snaptron_build_url"
              arguments log
            = (Returned
                 [ {| type := "text";
                      text := built_text
                                (BASE_URL ++ "/" ++ py_str compilation
                                 ++ "/None" ++ query) |} ], log)).
Proof.
  intros arguments log. split.
  - intros name endpoint Hname Hc. eexists.
    rewrite call_tool_run, (record_tools_dispatch name endpoint)
      by exact Hname.
    rewrite query_records_run, Hc. cbv zeta. cbn [snd].
    rewrite build_url_pairs. reflexivity.
  - intros compilation Hc He. eexists.
    rewrite call_tool_run, build_run, Hc, He. cbv zeta. cbn [fst snd answered].
    rewrite build_url_pairs. reflexivity.
Qed.

End GatewayFurther.

(** ** The record count *)

Lemma rstrip_idempotent (s : string) : rstrip (rstrip s) = rstrip s.
Proof.
  induction s as [|c s IH]; [reflexivity|].
  cbn [rstrip]. destruct (is_space c && is_empty (rstrip s)) eqn:E;
    [reflexivity|].
  cbn [rstrip]. now rewrite IH, E.
Qed.

Lemma lstrip_idempotent (s : string) : lstrip (lstrip s) = lstrip s.
Proof.
  induction s as [|c s IH]; [reflexivity|].
  cbn [lstrip]. destruct (is_space c) eqn:E; [exact IH|].
  cbn [lstrip]. now rewrite E.
Qed.

Lemma strip_rstrip_fixed (l : string) : strip l = l -> rstrip l = l.
Proof.
  intros H. rewrite <- H at 1. unfold strip.
  rewrite rstrip_idempotent. exact H.
Qed.

Lemma strip_lstrip_fixed (l : string) : strip l = l -> lstrip l = l.
Proof.
  intros H. rewrite <- H at 1. unfold strip.
  rewrite <- lstrip_rstrip, lstrip_idempotent, lstrip_rstrip. exact H.
Qed.

Lemma lstrip_all_space (pre s : string) :
  all_space pre = true -> lstrip (pre ++ s) = lstrip s.
Proof.
  induction pre as [|c pre IH]; [reflexivity|].
  cbn [all_space append lstrip]. intros H.
  apply andb_true_iff in H as [Hc Hp]. rewrite Hc. now apply IH.
Qed.

Lemma rstrip_only_space (post : string) :
  all_space post = true -> rstrip post = "".
Proof.
  induction post as [|c post IH]; [reflexivity|].
  cbn [all_space rstrip]. intros H.
  apply andb_true_iff in H as [Hc Hp]. now rewrite IH, Hc.
Qed.

Lemma rstrip_all_space (s post : string) :
  all_space post = true -> rstrip (s ++ post) = rstrip s.
Proof.
  intros H. induction s as [|c s IH]; [now apply rstrip_only_space|].
  cbn [append rstrip]. now rewrite IH.
Qed.

Lemma strip_padding (pre s post : string) :
  all_space pre = true -> all_space post = true ->
  strip (pre ++ s ++ post) = strip s.
Proof.
  intros Hpre Hpost. unfold strip.
  rewrite lstrip_all_space by exact Hpre.
  rewrite <- !lstrip_rstrip. now rewrite rstrip_all_space.
Qed.

(** X16: whitespace around the body, blank lines included, does not
    change the record count; a body of whitespace only counts no
    record. *)
Theorem count_records_ignores_padding :
  forall pre text post : string,
    all_space pre = true -> all_space post = true ->
    count_records (pre ++ text ++ post) = count_records text
    /\ count_records (pre ++ post) = 0.
Proof.
  intros pre text post Hpre Hpost. unfold count_records. split.
  - now rewrite strip_padding.
  - replace (pre ++ post) with (pre ++ "" ++ post) by reflexivity.
    now rewrite strip_padding.
Qed.

Lemma lstrip_length (s : string) : String.length (lstrip s) <= String.length s.
Proof.
  induction s as [|c s IH]; [apply Nat.le_refl|].
  cbn [lstrip]. destruct (is_space c); simpl; lia.
Qed.

Lemma lstrip_fixed_app (l s : string) :
  l <> "" -> lstrip l = l -> lstrip (l ++ s) = l ++ s.
Proof.
  destruct l as [|c l]; [congruence|]. intros _.
  cbn [lstrip append]. destruct (is_space c); [|reflexivity].
  intros H. pose proof (lstrip_length l) as Hl.
  rewrite H in Hl. simpl in Hl. lia.
Qed.

Lemma rstrip_app_keep (a b : string) :
  rstrip b <> "" -> rstrip (a ++ b) = a ++ rstrip b.
Proof.
  intros H. induction a as [|c a IH]; [reflexivity|].
  cbn [append rstrip]. rewrite IH.
  destruct (a ++ rstrip b) as [|d r] eqn:E.
  - destruct a; simpl in E; [congruence | discriminate].
  - now rewrite andb_false_r.
Qed.

Lemma concat_clean_nonempty (l : string) (ls : list string) :
  l <> "" -> String.concat LF (l :: ls) <> "".
Proof.
  intros H. destruct l as [|c l]; [congruence|].
  destruct ls; simpl; discriminate.
Qed.

Lemma rstrip_concat_clean (ls : list string) :
  ls <> [] -> Forall clean_line ls ->
  rstrip (String.concat LF ls) = String.concat LF ls.
Proof.
  intros Hne H. induction H as [|l ls Hl Hls IH]; [congruence|].
  destruct Hl as (Hl0 & _ & Hl).
  destruct ls as [|l2 ls]; [now apply strip_rstrip_fixed|].
  change (String.concat LF (l :: l2 :: ls))
    with (l ++ LF ++ String.concat LF (l2 :: ls)).
  assert (Hrest : rstrip (String.concat LF (l2 :: ls))
                  = String.concat LF (l2 :: ls)) by (apply IH; discriminate).
  inversion Hls as [|? ? (Hl2 & _) _]; subst.
  pose proof (concat_clean_nonempty l2 ls Hl2) as Hn.
  rewrite <- append_assoc, rstrip_app_keep, Hrest; [reflexivity|].
  now rewrite Hrest.
Qed.

Lemma strip_concat_clean (ls : list string) :
  ls <> [] -> Forall clean_line ls ->
  strip (String.concat LF ls) = String.concat LF ls.
Proof.
  intros Hne H. unfold strip.
  rewrite <- lstrip_rstrip, rstrip_concat_clean by assumption.
  destruct ls as [|l ls]; [congruence|].
  inversion H as [|? ? (Hl0 & _ & Hl) _]; subst.
  destruct ls as [|l2 ls].
  - now apply strip_lstrip_fixed.
  - change (String.concat LF (l :: l2 :: ls))
      with (l ++ LF ++ String.concat LF (l2 :: ls)).
    apply lstrip_fixed_app; [exact Hl0 | now apply strip_lstrip_fixed].
Qed.

Lemma split_lines_single (l : string) :
  has_char "010" l = false -> split_lines l = [l].
Proof.
  induction l as [|c l IH]; [reflexivity|].
  cbn [has_char split_lines]. intros H.
  apply orb_false_iff in H as [Hc Hl]. now rewrite Hc, IH.
Qed.

Lemma split_lines_app (a b : string) :
  has_char "010" a = false ->
  split_lines (a ++ LF ++ b) = a :: split_lines b.
Proof.
  induction a as [|c a IH]; [reflexivity|].
  cbn [has_char]. intros H. apply orb_false_iff in H as [Hc Ha].
  cbn [append split_lines]. now rewrite Hc, IH.
Qed.

(** Splitting undoes joining with newlines. *)
Lemma split_lines_concat (ls : list string) :
  ls <> [] -> Forall (fun l => has_char "010" l = false) ls ->
  split_lines (String.concat LF ls) = ls.
Proof.
  intros Hne H. induction H as [|l ls Hl Hls IH]; [congruence|].
  destruct ls as [|l2 ls]; [now apply split_lines_single|].
  change (String.concat LF (l :: l2 :: ls))
    with (l ++ LF ++ String.concat LF (l2 :: ls)).
  rewrite split_lines_app by exact Hl. f_equal. apply IH. discriminate.
Qed.

(** X17: for a body made of lines that are not empty, hold no newline
    and have no whitespace at either end, joined with newlines and with
    any whitespace before and after it, the count is the number of lines
    that do not start with [DataSource], header line or not. *)
Theorem count_records_of_clean_lines :
  forall (lines : list string) (pre post : string),
    lines <> [] ->
    Forall clean_line lines ->
    all_space pre = true -> all_space post = true ->
    count_records (pre ++ String.concat LF lines ++ post)
    = List.length (filter (fun l => negb (startswith l "DataSource")) lines).
Proof.
  intros lines pre post Hne Hclean Hpre Hpost. unfold count_records.
  rewrite strip_padding, strip_concat_clean by assumption.
  rewrite split_lines_concat; [|exact Hne|].
  - f_equal. apply filter_ext_in. intros l Hl.
    rewrite Forall_forall in Hclean. destruct (Hclean l Hl) as (Hl0 & _).
    unfold is_record. destruct l; [congruence | reflexivity].
  - eapply Forall_impl; [|exact Hclean]. now intros l (_ & Hl & _).
Qed.

(** ** Worked instances of the further properties *)

(** X1 at work: an empty string, an empty list and a [None]. *)
Lemma build_url_bare_path_witness :
  let params := [("regions", PStr ""); ("rfilter", PList []);
                 ("ids", PNone)] in
  Forall (fun kv => skipped (snd kv) = true) params
  /\ build_url (PStr "gtexv2") (PStr "genes") params
     = "http://snaptron.cs.jhu.edu/gtexv2/genes".
Proof.
  intros params.
  assert (H : Forall (fun kv => skipped (snd kv) = true) params)
    by (repeat constructor).
  split; [exact H|].
  exact (proj1 (build_url_bare_path (PStr "gtexv2") (PStr "genes") params) H).
Defined.

(** X2 at work: a region followed by two range filters. *)
Lemma build_url_app_witness :
  let p1 := [("regions", PStr "BRCA1")] in
  let p2 := [("rfilter", PList [PStr "strand:+"; PStr "length<:100"])] in
  query_parts p1 <> [] /\ query_parts p2 <> []
  /\ build_url (PStr "tcga") (PStr "snaptron") (p1 ++ p2)%list
     = "http://snaptron.cs.jhu.edu/tcga/snaptron?regions=BRCA1"
       ++ "&" ++ "rfilter=strand:+&rfilter=length<:100".
Proof.
  intros p1 p2.
  assert (H1 : query_parts p1 <> []) by discriminate.
  assert (H2 : query_parts p2 <> []) by discriminate.
  split; [exact H1|]. split; [exact H2|].
  exact (build_url_app (PStr "tcga") (PStr "snaptron") p1 p2 H1 H2).
Defined.

(** X3 at work: a region that smuggles an [ids] parameter. *)
Lemma build_url_no_escaping_witness :
  "BRCA1" <> "" /\ "5" <> ""
  /\ build_url (PStr "gtex") (PStr "snaptron")
       [("regions", PStr "BRCA1&ids=5")]
     = build_url (PStr "gtex") (PStr "snaptron")
         [("regions", PStr "BRCA1"); ("ids", PStr "5")].
Proof.
  assert (H1 : "BRCA1" <> "") by discriminate.
  assert (H2 : "5" <> "") by discriminate.
  split; [exact H1|]. split; [exact H2|].
  exact (build_url_no_escaping (PStr "gtex") (PStr "snaptron")
           "regions" "BRCA1" "ids" "5" H1 H2).
Defined.

(** X4 at work: [contains=0] is kept, an unknown key is not. *)
Lemma extract_params_items_witness :
  let args := [("contains", PInt 0); ("limit", PInt 10)] in
  In ("contains", PInt 0) (extract_params args)
  /\ ~ In ("limit", PInt 10) (extract_params args).
Proof.
  intros args. split.
  - apply (proj2 (extract_params_items args "contains" (PInt 0))).
    split; [reflexivity|]. left. split; [simpl; tauto | discriminate].
  - intros H.
    apply (proj1 (extract_params_items args "limit" (PInt 10))) in H.
    destruct H as (_ & [[Hk _]|[[Hk|Hk] _]]);
      [simpl in Hk; intuition discriminate | discriminate | discriminate].
Defined.

(** X6 at work: a zero is sent for [contains], not for [rfilter]. *)
Lemma query_pairs_of_arguments_witness :
  let args := [("contains", PInt 0); ("rfilter", PInt 0);
               ("compilation", PStr "gtexv2")] in
  pairs_of "contains" (extract_params args) = [("contains", "0")]
  /\ pairs_of "rfilter" (extract_params args) = []
  /\ pairs_of "compilation" (extract_params args) = [].
Proof.
  intros args.
  pose proof (query_pairs_of_arguments args "contains") as (H1 & _ & _).
  pose proof (query_pairs_of_arguments args "rfilter") as (_ & H2 & _).
  pose proof (query_pairs_of_arguments args "compilation") as (_ & _ & H3).
  split; [|split].
  - apply H1. simpl. tauto.
  - apply H2. now left.
  - apply H3. simpl. intuition discriminate.
Defined.

(** X7 at work: without a caller's [fields] the forced one goes last. *)
Lemma count_tool_fields_position_witness :
  let args := [("regions", PStr "BRCA1");
               ("rfilter", PList [PStr "strand:+"])] in
  dict_get "fields" (extract_params args) = None
  /\ query_parts (dict_set "fields" (PStr "rc") (extract_params args))
     = ["regions=BRCA1"; "rfilter=strand:+"; "fields=rc"].
Proof.
  intros args.
  assert (H : dict_get "fields" (extract_params args) = None) by reflexivity.
  split; [exact H|].
  exact (proj2 (proj1 (count_tool_fields_position args) H)).
Defined.

(** X8 at work: the count tool's required [regions] has a schema. *)
Lemma catalogue_keys_are_handled_witness :
  exists tool,
    In tool list_tools
    /\ name tool = "snaptron_get_result_count"
    /\ exists schema, In ("regions", schema) (properties tool).
Proof.
  pose (tool := {| name := "snaptron_get_result_count";
                   properties :=
                     [ ("compilation", string_enum KNOWN_COMPILATIONS);
                       ("regions", string_);
                       ("rfilter", array_of_string);
                       ("sfilter", array_of_string);
                       ("sids", string_) ];
                   required := ["compilation"; "regions"] |}).
  assert (Hin : In tool list_tools) by (simpl; tauto).
  exists tool. split; [exact Hin|]. split; [reflexivity|].
  apply (proj2 (catalogue_keys_are_handled tool Hin)). simpl. tauto.
Defined.

(** X10 at work: the junctions tool in front of the sample body. *)
Lemma record_tools_success_witness :
  let args := [("compilation", PStr "gtexv2"); ("regions", PStr "BRCA1")] in
  let url := "http://snaptron.cs.jhu.edu/gtexv2/snaptron?regions=BRCA1" in
  In ("snaptron_query_junctions", "snaptron")
     [("snaptron_query_junctions", "snaptron");
      ("snaptron_query_genes", "genes");
      ("snaptron_query_samples", "samples")]
  /\ (200 <= 200 <= 299)%Z
  /\ call_tool stub_200 stub_json "snaptron_query_junctions" args []
     = (Returned
          [ {| type := "text";
               text := "Query URL: " ++ url ++ LF ++ LF
                       ++ "Results (3 records):" ++ LF ++ LF ++ stub_body |} ],
        [url]).
Proof.
  intros args url.
  assert (H1 : In ("snaptron_query_junctions", "snaptron")
                 [("snaptron_query_junctions", "snaptron");
                  ("snaptron_query_genes", "genes");
                  ("snaptron_query_samples", "samples")]) by (left; reflexivity).
  assert (H2 : (200 <= 200 <= 299)%Z) by (split; discriminate).
  split; [exact H1|]. split; [exact H2|].
  exact (record_tools_success stub_200 stub_json "snaptron_query_junctions"
           "snaptron" args (PStr "gtexv2") [] 200 stub_body
           H1 eq_refl eq_refl H2).
Defined.

(** X11 at work: the samples tool in front of an unreachable service. *)
Lemma request_failure_is_soft_error_witness :
  let args := [("compilation", PStr "srav2"); ("ids", PStr "20,40")] in
  let url := "http://snaptron.cs.jhu.edu/srav2/samples?ids=20,40" in
  In url (snd (call_tool stub_down stub_json "snaptron_query_samples"
                 args []))
  /\ call_tool stub_down stub_json "snaptron_query_samples" args []
     = (Returned
          [ {| type := "text";
               text := "Request error: All connection attempts failed" |} ],
        [url]).
Proof.
  intros args url.
  assert (H : In url (snd (call_tool stub_down stub_json
                             "snaptron_query_samples" args [])))
    by (left; reflexivity).
  split; [exact H|].
  exact (request_failure_is_soft_error stub_down stub_json
           "snaptron_query_samples" args url
           "All connection attempts failed" H eq_refl).
Defined.

(** X12 at work: a registry body that is not JSON. *)
Lemma registry_tool_behaviour_witness :
  (200 <= 200 <= 299)%Z
  /\ fst (call_tool stub_200 stub_json "snaptron_list_compilations" [] [])
     = Returned [ {| type := "text";
                     text := "Registry response:" ++ LF ++ stub_body |} ].
Proof.
  assert (H : (200 <= 200 <= 299)%Z) by (split; discriminate).
  split; [exact H|].
  exact (proj2 (proj2 (proj2 (registry_tool_behaviour stub_200 stub_json
                                [] [] []))
                  200%Z stub_body eq_refl H)
           "Expecting value: line 1 column 1 (char 0)" eq_refl).
Defined.

(** X13 at work: the genes tool and the build-only tool side by side. *)
Lemma build_tool_predicts_request_witness :
  let args := [("compilation", PStr "tcgav2"); ("endpoint", PStr "genes");
               ("regions", PStr "TP53")] in
  exists url,
    snd (call_tool stub_500 stub_json "snaptron_query_genes" args [])
    = [url]
    /\ fst (call_tool stub_500 stub_json "snaptron_build_url" args [])
       = Returned [ {| type := "text"; text := built_text url |} ].
Proof.
  intros args.
  destruct (build_tool_predicts_request stub_500 stub_json
              "snaptron_query_genes" "genes" args (PStr "tcgav2") []
              (or_intror (or_introl eq_refl)) eq_refl (or_introl eq_refl))
    as (url & Hlog & Htext).
  exists url. split; [exact Hlog|]. now rewrite Htext.
Defined.

(** X14 at work: an advertised tool is not answered as unknown. *)
Lemma unknown_answer_iff_not_catalogued_witness :
  fst (call_tool stub_500 stub_json "snaptron_build_url" [] [])
  <> Returned [ {| type := "text";
                   text := "Unknown tool: snaptron_build_url" |} ].
Proof.
  intros H.
  apply (proj1 (unknown_answer_iff_not_catalogued stub_500 stub_json
                  "snaptron_build_url" [] [])) in H.
  apply H. simpl. tauto.
Defined.

(** X15 at work: a [null] compilation reaches the service. *)
Lemma null_is_not_missing_witness :
  exists query,
    snd (call_tool stub_500 stub_json "snaptron_query_genes"
           [("compilation", PNone)] [])
    = [ "http://snaptron.cs.jhu.edu/None/" ++ "genes" ++ query ].
Proof.
  exact (proj1 (null_is_not_missing stub_500 stub_json
                  [("compilation", PNone)] [])
           "snaptron_query_genes" "genes"
           (or_intror (or_introl eq_refl)) eq_refl).
Defined.

(** X16 at work: blank lines before and after one record. *)
Lemma count_records_ignores_padding_witness :
  all_space (LF ++ " ") = true /\ all_space (LF ++ LF) = true
  /\ count_records ((LF ++ " ") ++ "GTEx:I" ++ (LF ++ LF))
     = count_records "GTEx:I".
Proof.
  split; [reflexivity|]. split; [reflexivity|].
  exact (proj1 (count_records_ignores_padding (LF ++ " ") "GTEx:I" (LF ++ LF)
                  eq_refl eq_refl)).
Defined.

(** X17 at work: a header line and two records, newline at the end. *)
Lemma count_records_of_clean_lines_witness :
  let lines := ["DataSource:Type"; "GTEx:I"; "GTEx:I"] in
  lines <> [] /\ Forall clean_line lines
  /\ count_records ("" ++ String.concat LF lines ++ LF) = 2.
Proof.
  intros lines.
  assert (Hne : lines <> []) by discriminate.
  assert (Hc : Forall clean_line lines).
  { repeat (constructor;
            [split; [discriminate | split; reflexivity]|]).
    constructor. }
  split; [exact Hne|]. split; [exact Hc|].
  exact (count_records_of_clean_lines lines "" LF Hne Hc eq_refl eq_refl).
Defined.
